(** * SAI API generator: schema translation and table classification

    A shallow embedding of [SAI/sai_api_gen.py]: the key type resolvers
    ([get_sai_key_type], [get_sai_lpm_type], [get_sai_list_type],
    [get_sai_range_list_type]), the match-field resolver
    ([get_sai_key_data]), the action model ([extract_action_data]) and the
    table loop of [generate_sai_api].

    Python strings are modelled as [string] (ASCII text), JSON integers as
    [Z], the JSON objects of the P4 runtime document as records whose
    optional tags are [option] fields, the [all_actions] dictionary as a
    [gmap Z], and every [raise] (or uncaught lookup / unpacking failure) as
    a value of the [error] type. *)

From Stdlib Require Import ZArith String Ascii Bool Lia.
From stdpp Require Import base option list gmap strings.

Local Open Scope string_scope.
Local Open Scope Z_scope.

(** ** Failures *)

(** The failures the generator can end with.  The first three are the
    [ValueError]s raised explicitly by the source; [MissingActionReference]
    is the [KeyError] of [all_actions[action_id]]; [UnpackError] is the
    [ValueError] of a tuple assignment whose right-hand side has the wrong
    number of items. *)
Inductive error : Type :=
| UnsupportedWidth
| InvalidMatchTag
| UnsupportedMatchKind
| MissingActionReference
| UnpackError.

Inductive result (A : Type) : Type :=
| Ok (a : A)
| Raise (e : error).
Arguments Ok {A} a.
Arguments Raise {A} e.

Definition bind {A B} (r : result A) (k : A -> result B) : result B :=
  match r with
  | Ok a => k a
  | Raise e => Raise e
  end.

Declare Scope result_scope.
Delimit Scope result_scope with result.
Notation "'let*' x ':=' r 'in' k" := (bind r (fun x => k))
  (at level 10, x name, r at level 100, k at level 200) : result_scope.
Local Open Scope result_scope.

(** A [for] loop over a list whose body updates a loop state and may raise:
    the first failure ends the loop. *)
Fixpoint for_each {A S : Type} (body : S -> A -> result S) (l : list A) (s : S)
  : result S :=
  match l with
  | [] => Ok s
  | x :: rest => let* s' := body s x in for_each body rest s'
  end.

(** ** Python string operations used by the generator *)

Module Py.

(** [needle in hay] *)
Fixpoint contains (needle hay : string) : bool :=
  String.prefix needle hay
  || match hay with
     | EmptyString => false
     | String _ rest => contains needle rest
     end.

Definition lower_ascii (c : ascii) : ascii :=
  let n := nat_of_ascii c in
  if (Nat.leb 65 n && Nat.leb n 90)%bool then ascii_of_nat (n + 32) else c.

(** [s.lower()] *)
Fixpoint lower (s : string) : string :=
  match s with
  | EmptyString => EmptyString
  | String c rest => String (lower_ascii c) (lower rest)
  end.

(** [s.split(sep)] for a one-character separator: never empty. *)
Fixpoint split (sep : ascii) (s : string) : list string :=
  match s with
  | EmptyString => [EmptyString]
  | String c rest =>
      if Ascii.eqb c sep then EmptyString :: split sep rest
      else match split sep rest with
           | seg :: segs => String c seg :: segs
           | [] => [String c EmptyString]
           end
  end.

(** [s.split(sep, 1)]: at most one cut, at the first separator. *)
Fixpoint split1 (sep : ascii) (s : string) : list string :=
  match s with
  | EmptyString => [EmptyString]
  | String c rest =>
      if Ascii.eqb c sep then [EmptyString; rest]
      else match split1 sep rest with
           | seg :: segs => String c seg :: segs
           | [] => [String c EmptyString]
           end
  end.

(** [s.replace(old, new)] for one-character [old] and [new]. *)
Fixpoint replace (old new : ascii) (s : string) : string :=
  match s with
  | EmptyString => EmptyString
  | String c rest =>
      String (if Ascii.eqb c old then new else c) (replace old new rest)
  end.

(** [l[-1]] on a list of strings ([split] never returns an empty list) *)
Definition last_item (l : list string) : string := List.last l EmptyString.

(** [x in l] for a list of strings *)
Definition mem (x : string) (l : list string) : bool :=
  existsb (String.eqb x) l.

Definition upper_ascii (c : ascii) : ascii :=
  let n := nat_of_ascii c in
  if (Nat.leb 97 n && Nat.leb n 122)%bool then ascii_of_nat (n - 32) else c.

(** [s.upper()] *)
Fixpoint upper (s : string) : string :=
  match s with
  | EmptyString => EmptyString
  | String c rest => String (upper_ascii c) (upper rest)
  end.

(** [sep.join(l)] for a one-character separator *)
Fixpoint join (sep : ascii) (l : list string) : string :=
  match l with
  | [] => EmptyString
  | [x] => x
  | x :: rest => x +:+ String sep (join sep rest)
  end.

End Py.

(** ** Tags and constants *)

Definition NOACTION : string := "NoAction".

(** ** Key type resolver *)

Definition get_sai_key_type (key_size : Z) (key_header key_field : string)
  : result string :=
  if key_size =? 1 then Ok "bool"
  else if key_size <=? 8 then Ok "sai_uint8_t"
  else if key_size <=? 16 then Ok "sai_uint16_t"
  else if (key_size =? 32)
          && (Py.contains "addr" key_field || Py.contains "ip" key_header)
       then Ok "sai_ip_address_t"
  else if key_size <=? 32 then Ok "sai_uint32_t"
  else if (key_size =? 48)
          && (Py.contains "addr" key_field || Py.contains "mac" key_header)
       then Ok "sai_mac_t"
  else if key_size <=? 64 then Ok "sai_uint64_t"
  else Raise UnsupportedWidth.

Definition get_sai_lpm_type (key_size : Z) (key_header key_field : string)
  : result string :=
  if (key_size =? 32)
     && (Py.contains "addr" key_field || Py.contains "ip" key_header)
  then Ok "sai_ip_prefix_t"
  else Raise UnsupportedWidth.

Definition get_sai_list_type (key_size : Z) (key_header key_field : string)
  : result string :=
  if key_size <=? 8 then Ok "sai_u8_list_t"
  else if key_size <=? 16 then Ok "sai_u16_list_t"
  else if (key_size =? 32)
          && (Py.contains "addr" key_field || Py.contains "ip" key_header)
       then Ok "sai_ip_address_list_t"
  else if key_size <=? 32 then Ok "sai_u32_list_t"
  else if key_size <=? 64 then Ok "sai_u64_list_t"
  else Raise UnsupportedWidth.

Definition get_sai_range_list_type (key_size : Z) (key_header key_field : string)
  : result string :=
  if key_size <=? 8 then Ok "sai_u8_range_list_t"
  else if key_size <=? 16 then Ok "sai_u16_range_list_t"
  else if (key_size =? 32)
          && (Py.contains "addr" key_field || Py.contains "ip" key_header)
       then Ok "sai_ipaddr_range_list_t"
  else if key_size <=? 32 then Ok "sai_u32_range_list_t"
  else if key_size <=? 64 then Ok "sai_u64_range_list_t"
  else Raise UnsupportedWidth.

(** ** The P4 runtime document (input) *)

(** [program['tables'][i]['matchFields'][j]]: [name], [bitwidth] and the two
    optional tags [matchType] and [otherMatchType]. *)
Record match_field : Type := MatchField {
  mf_name : string;
  mf_bitwidth : Z;
  mf_matchType : option string;
  mf_otherMatchType : option string
}.

(** [program['actions'][i]['params'][j]] *)
Record param : Type := Param {
  p_id : Z;
  p_name : string;
  p_bitwidth : Z
}.

(** [program['actions'][i]]: the preamble's [id] and [name], and the
    optional [params]. *)
Record action : Type := Action {
  a_id : Z;
  a_name : string;
  a_params : option (list param)
}.

(** [program['tables'][i]]: the preamble's [name], the [matchFields] and the
    ids of the [actionRefs]. *)
Record table : Type := Table {
  t_name : string;
  t_matchFields : list match_field;
  t_actionRefs : list Z
}.

Record program : Type := Program {
  p_tables : list table;
  p_actions : list action
}.

(** ** The SAI model (output) *)

(** The entry of [sai_key_data] that holds the resolved type is named after
    the match kind. *)
Inductive type_slot : Type :=
| sai_key_type
| sai_lpm_type
| sai_list_type
| sai_range_list_type.

Record sai_key_data : Type := SaiKey {
  sai_key_name : string;
  match_type : string;
  key_slot : type_slot;
  key_type : string
}.

Record sai_param : Type := SaiParam {
  sp_id : Z;
  sp_name : string;
  sp_type : string
}.

Record sai_action : Type := SaiAction {
  sa_id : Z;
  sa_name : string;
  sa_params : list sai_param
}.

(** [is_object] holds the text ['true'] or ['false'], as in the source. *)
Record sai_table_data : Type := SaiTable {
  keys : list sai_key_data;
  actions : list sai_action;
  name : string;
  is_object : string
}.

Record sai_api : Type := SaiApi {
  tables : list sai_table_data
}.

(** ** Match-field resolver *)

(** [a, b = l] *)
Definition unpack2 {A} (l : list A) : result (A * A) :=
  match l with
  | [a; b] => Ok (a, b)
  | _ => Raise UnpackError
  end.

(** The header and field hints of a dotted key path: three segments are
    struct, header, field; anything else is unpacked as header, field. *)
Definition key_hints (key_tuple : list string) : result (string * string) :=
  match key_tuple with
  | [_; key_header; key_field] => Ok (key_header, key_field)
  | _ => unpack2 key_tuple
  end.

(** The match kind of a field: [otherMatchType] first, then [matchType]. *)
Definition key_match_type (key : match_field) : result string :=
  match mf_otherMatchType key with
  | Some other => Ok (Py.lower other)
  | None =>
      match mf_matchType key with
      | Some mt => Ok (Py.lower mt)
      | None => Raise InvalidMatchTag
      end
  end.

Definition get_sai_key_data (key : match_field) : result sai_key_data :=
  let* names := unpack2 (Py.split ":" (mf_name key)) in
  let full_key_name := fst names in
  let sai_key_name := snd names in
  let* hints := key_hints (Py.split "." full_key_name) in
  let key_header := fst hints in
  let key_field := snd hints in
  let key_size := mf_bitwidth key in
  let* match_type := key_match_type key in
  if String.eqb match_type "exact" then
    let* ty := get_sai_key_type key_size key_header key_field in
    Ok (SaiKey sai_key_name match_type sai_key_type ty)
  else if String.eqb match_type "lpm" then
    let* ty := get_sai_lpm_type key_size key_header key_field in
    Ok (SaiKey sai_key_name match_type sai_lpm_type ty)
  else if String.eqb match_type "list" then
    let* ty := get_sai_list_type key_size key_header key_field in
    Ok (SaiKey sai_key_name match_type sai_list_type ty)
  else if String.eqb match_type "range_list" then
    let* ty := get_sai_range_list_type key_size key_header key_field in
    Ok (SaiKey sai_key_name match_type sai_range_list_type ty)
  else Raise UnsupportedMatchKind.

(** ** Action model *)

(** The body of the loop over [action['params']]. *)
Definition extract_param (params : list sai_param) (p : param)
  : result (list sai_param) :=
  let* ty := get_sai_key_type (p_bitwidth p) (p_name p) (p_name p) in
  Ok (params ++ [SaiParam (p_id p) (p_name p) ty])%list.

(** The body of the loop over [program['actions']]. *)
Definition extract_action (action_data : gmap Z sai_action) (a : action)
  : result (gmap Z sai_action) :=
  let id := a_id a in
  let name := Py.last_item (Py.split "." (a_name a)) in
  let* params :=
    match a_params a with
    | Some ps => for_each extract_param ps []
    | None => Ok []
    end in
  Ok (<[id := SaiAction id name params]> action_data).

Definition extract_action_data (prog : program) : result (gmap Z sai_action) :=
  for_each extract_action (p_actions prog) ∅.

(** ** Table classification and assembly *)

(** [all_actions[action_id]] *)
Definition lookup_action (all_actions : gmap Z sai_action) (action_id : Z)
  : result sai_action :=
  match all_actions !! action_id with
  | Some a => Ok a
  | None => Raise MissingActionReference
  end.

(** The body of the loop over [table['matchFields']]. *)
Definition append_key (keys : list sai_key_data) (key : match_field)
  : result (list sai_key_data) :=
  let* k := get_sai_key_data key in Ok (keys ++ [k])%list.

(** The body of the loop over [table['actionRefs']]. *)
Definition append_action (all_actions : gmap Z sai_action)
    (acts : list sai_action) (action_id : Z) : result (list sai_action) :=
  let* a := lookup_action all_actions action_id in
  if negb (String.eqb (sa_name a) NOACTION) then Ok (acts ++ [a])%list
  else Ok acts.

(** The object / entry decision at the end of the table loop's body. *)
Definition classify (table_name sai_name : string)
    (keys : list sai_key_data) (acts : list sai_action) : sai_table_data :=
  if (Nat.eqb (List.length keys) 1)
     && match keys !! 0%nat with
        | Some k =>
            String.eqb (sai_key_name k)
              (Py.last_item (Py.split "." table_name) +:+ "_id")
        | None => false
        end
  then SaiTable [] acts sai_name "true"
  else if Nat.ltb 5 (List.length keys)
  then SaiTable keys acts sai_name "true"
  else SaiTable keys acts (sai_name +:+ "_entry") "false".

(** One pass of the loop over [program['tables']]: [None] is the [continue]
    of an ignored table, [Some d] the descriptor appended to [sai_tables]. *)
Definition sai_table (all_actions : gmap Z sai_action)
    (ignore_tables : list string) (t : table) : result (option sai_table_data) :=
  let* names := unpack2 (Py.split1 "." (t_name t)) in
  let table_name := snd names in
  let sai_name := Py.replace "." "_" table_name in
  if Py.mem sai_name ignore_tables then Ok None
  else
    let* keys := for_each append_key (t_matchFields t) [] in
    let* acts := for_each (append_action all_actions) (t_actionRefs t) [] in
    Ok (Some (classify table_name sai_name keys acts)).

Definition append_table (all_actions : gmap Z sai_action)
    (ignore_tables : list string) (sai_tables : list sai_table_data)
    (t : table) : result (list sai_table_data) :=
  let* r := sai_table all_actions ignore_tables t in
  match r with
  | Some d => Ok (sai_tables ++ [d])%list
  | None => Ok sai_tables
  end.

Definition generate_sai_api (prog : program) (ignore_tables : list string)
  : result sai_api :=
  let* all_actions := extract_action_data prog in
  let* sai_tables :=
    for_each (append_table all_actions ignore_tables) (p_tables prog) [] in
  Ok (SaiApi sai_tables).

(** ** Header patches of [write_sai_files]

    The three loops of [write_sai_files] that rewrite the lines of
    [saiextensions.h], [saitypesextensions.h] and [saiobject.h].  Each takes
    the lines read from the file and returns [new_lines]; [app_name] is
    [sai_api['app_name']] and [sai_tables] is [sai_api['tables']].  Reading
    and writing the files and rendering the template are not modelled. *)

(** The line feed and the double quote of the inserted lines. *)
Definition LF : string := String (ascii_of_nat 10) EmptyString.
Definition DQ : string := String (ascii_of_nat 34) EmptyString.

Definition API_MARK : string := "Add new experimental APIs above this line".
Definition INCLUDE_MARK : string := "new experimental object type includes".
Definition OBJECT_TYPE_MARK : string :=
  "Add new experimental object types above this line".
Definition ENTRY_MARK : string := "Add new experimental entries above this line".

(** One pass of the loop over the lines of [saiextensions.h]. *)
Definition saiextensions_line (app_name : string) (new_lines : list string)
    (line : string) : list string :=
  let new_lines :=
    if Py.contains API_MARK line
    then (new_lines ++ ["    SAI_API_" +:+ Py.upper app_name +:+ "," +:+ LF +:+ LF])%list
    else new_lines in
  if Py.contains INCLUDE_MARK line
  then ((new_lines ++ [line])
        ++ ["#include " +:+ DQ +:+ "saiexperimental" +:+ app_name +:+ ".h"
            +:+ DQ +:+ LF])%list
  else (new_lines ++ [line])%list.

Definition saiextensions_lines (app_name : string) (lines : list string)
  : list string :=
  fold_left (saiextensions_line app_name) lines [].

(** The inner loop over the tables in [saitypesextensions.h]. *)
Definition object_type_line (new_lines : list string) (t : sai_table_data)
  : list string :=
  (new_lines ++ ["    SAI_OBJECT_TYPE_" +:+ Py.upper (name t) +:+ "," +:+ LF +:+ LF])%list.

Definition saitypesextensions_line (sai_tables : list sai_table_data)
    (new_lines : list string) (line : string) : list string :=
  let new_lines :=
    if Py.contains OBJECT_TYPE_MARK line
    then fold_left object_type_line sai_tables new_lines
    else new_lines in
  (new_lines ++ [line])%list.

Definition saitypesextensions_lines (sai_tables : list sai_table_data)
    (lines : list string) : list string :=
  fold_left (saitypesextensions_line sai_tables) lines [].

(** The inner loop over the tables in [saiobject.h]: only the tables with
    [is_object == 'false'] get a member. *)
Definition object_member_lines (new_lines : list string) (t : sai_table_data)
  : list string :=
  if String.eqb (is_object t) "false"
  then ((new_lines
         ++ ["    /** @validonly object_type == SAI_OBJECT_TYPE_"
             +:+ Py.upper (name t) +:+ " */" +:+ LF])
        ++ ["    sai_" +:+ name t +:+ "_t " +:+ name t +:+ ";" +:+ LF +:+ LF])%list
  else new_lines.

Definition saiobject_line (app_name : string) (sai_tables : list sai_table_data)
    (new_lines : list string) (line : string) : list string :=
  let new_lines :=
    if Py.contains ENTRY_MARK line
    then fold_left object_member_lines sai_tables new_lines
    else new_lines in
  if Py.contains INCLUDE_MARK line
  then ((new_lines ++ [line])
        ++ ["#include " +:+ DQ +:+ "../experimental/saiexperimental"
            +:+ app_name +:+ ".h" +:+ DQ +:+ LF])%list
  else (new_lines ++ [line])%list.

Definition saiobject_lines (app_name : string) (sai_tables : list sai_table_data)
    (lines : list string) : list string :=
  fold_left (saiobject_line app_name sai_tables) lines [].

(** ** Command line

    The exclusion list the script passes to [generate_sai_api]:
    [args.ignore_tables.split(',')]. *)
Definition cli_ignore_tables (ignore_tables_arg : string) : list string :=
  Py.split "," ignore_tables_arg.

Definition cli_generate (prog : program) (ignore_tables_arg : string)
  : result sai_api :=
  generate_sai_api prog (cli_ignore_tables ignore_tables_arg).

(** * Vocabulary of the properties *)

(** The body of a loop that appends at most one item per pass: [pass]
    returns the item, or [None] for a [continue]. *)
Definition collect_body {A B : Type} (pass : A -> result (option B))
    (acc : list B) (x : A) : result (list B) :=
  let* r := pass x in
  match r with
  | Some b => Ok (acc ++ [b])%list
  | None => Ok acc
  end.

(** [needle] occurs in [hay] as a contiguous run of characters. *)
Definition occurs_in (needle hay : string) : Prop :=
  exists pre post, hay = pre +:+ needle +:+ post.

(** The hint tests of the resolvers. *)
Definition ip_hint (key_header key_field : string) : Prop :=
  occurs_in "addr" key_field \/ occurs_in "ip" key_header.

Definition mac_hint (key_header key_field : string) : Prop :=
  occurs_in "addr" key_field \/ occurs_in "mac" key_header.

(** The match kinds [get_sai_key_data] has a resolver for. *)
Definition recognised_kinds : list string :=
  ["exact"; "lpm"; "list"; "range_list"].

(** The name of a match field has the shape [path:declared], with a path of
    two or three dotted segments, as in the P4 runtime documents the
    generator is written for. *)
Definition name_shape (n : string) : Prop :=
  exists full declared hints,
    unpack2 (Py.split ":" n) = Ok (full, declared)
    /\ key_hints (Py.split "." full) = Ok hints.

(** The tag a match field is resolved by. *)
Definition resolved_tag (key : match_field) (tag : string) : Prop :=
  mf_otherMatchType key = Some tag
  \/ (mf_otherMatchType key = None /\ mf_matchType key = Some tag).

(** The match field with its [matchType] tag replaced. *)
Definition with_matchType (mt : option string) (key : match_field)
  : match_field :=
  MatchField (mf_name key) (mf_bitwidth key) mt (mf_otherMatchType key).

(** The name a table is filed under: its qualified name without the control
    block, dots replaced. *)
Definition derived_name (t : table) : result string :=
  let* names := unpack2 (Py.split1 "." (t_name t)) in
  Ok (Py.replace "." "_" (snd names)).

(** The last dotted segment of the table's name. *)
Definition base_name (t : table) : result string :=
  let* names := unpack2 (Py.split1 "." (t_name t)) in
  Ok (Py.last_item (Py.split "." (snd names))).

(** The declared key name of a match field: what follows the colon. *)
Definition declared_name (mf : match_field) : result string :=
  let* names := unpack2 (Py.split ":" (mf_name mf)) in
  Ok (snd names).

(** The table has exactly one key, declared as [<base name>_id]. *)
Definition intrinsic_id (t : table) : Prop :=
  exists mf b,
    t_matchFields t = [mf]
    /\ base_name t = Ok b
    /\ declared_name mf = Ok (b +:+ "_id").

(** Sample tables: the two examples of the design notes and a table with
    six keys. *)
Definition my_table : table :=
  Table "ingress.my_table"
    [MatchField "hdr.ipv4.dst:ip_addr" 32 (Some "lpm") None] [].

Definition port_table : table :=
  Table "ingress.port"
    [MatchField "hdr.port.port_id:port_id" 16 (Some "exact") None] [].

Definition port_list_table : table :=
  Table "ingress.port"
    [MatchField "hdr.port.port_id:port_id" 16 None (Some "list")] [].

Definition six_keys_table : table :=
  Table "ingress.acl.stage1"
    [MatchField "meta.a:a" 1 (Some "EXACT") None;
     MatchField "meta.b:b" 8 (Some "EXACT") None;
     MatchField "meta.c:c" 16 (Some "EXACT") None;
     MatchField "meta.d:d" 32 (Some "EXACT") None;
     MatchField "meta.e:e" 48 (Some "EXACT") None;
     MatchField "meta.f:f" 64 None (Some "range_list")] [].

(** The table is left out: its derived name is in the exclusion list. *)
Definition excluded (ignore_tables : list string) (t : table) : bool :=
  match derived_name t with
  | Ok n => Py.mem n ignore_tables
  | Raise _ => false
  end.

Definition included (ignore_tables : list string) (t : table) : bool :=
  negb (excluded ignore_tables t).

(** A sample document: a routing table that references the no-op action, a
    port table with an intrinsic id key, and a six-key table. *)
Definition sample_actions : list action :=
  [Action 1 "NoAction" None;
   Action 2 "ingress.set_nexthop"
     (Some [Param 1 "nexthop_addr" 32; Param 2 "port" 16]);
   Action 3 "ingress.drop" (Some [])].

Definition routing_table : table :=
  Table "ingress.routing"
    [MatchField "hdr.ipv4.dst:ip_addr" 32 (Some "LPM") None] [2; 1; 3; 2].

Definition sample_program : program :=
  Program [routing_table; port_table; routing_table; six_keys_table]
    sample_actions.

Definition sample_api : sai_api :=
  Eval vm_compute in
    match generate_sai_api sample_program ["port"] with
    | Ok api => api
    | Raise _ => SaiApi []
    end.

(** The number of occurrences of a character in a string. *)
Fixpoint occurrences (c : ascii) (s : string) : nat :=
  match s with
  | EmptyString => 0%nat
  | String d rest =>
      ((if Ascii.eqb d c then 1 else 0) + occurrences c rest)%nat
  end.

(** The parameters an action declares: none when [params] is absent. *)
Definition declared_params (a : action) : list param :=
  match a_params a with
  | Some ps => ps
  | None => []
  end.

(** The descriptor [extract_action_data] files an action under, given the
    typed parameters. *)
Definition descriptor_of (a : action) (params : list sai_param) : sai_action :=
  SaiAction (a_id a) (Py.last_item (Py.split "." (a_name a))) params.

(** A parameter and its typed form: same id and name, and the scalar type
    of the width with the name as both hints. *)
Definition typed_param (p : param) (sp : sai_param) : Prop :=
  sp_id sp = p_id p
  /\ sp_name sp = p_name p
  /\ get_sai_key_type (p_bitwidth p) (p_name p) (p_name p) = Ok (sp_type sp).

(** The number of lines that carry a marker. *)
Definition marked (mark : string) (lines : list string) : nat :=
  List.length (List.filter (Py.contains mark) lines).

(** The tables that are entries: [is_object == 'false']. *)
Definition entry_tables (sai_tables : list sai_table_data)
  : list sai_table_data :=
  List.filter (fun t => String.eqb (is_object t) "false") sai_tables.

(** The resolver behind each type entry, and the entry of each match
    kind. *)
Definition resolver (slot : type_slot) : Z -> string -> string -> result string :=
  match slot with
  | sai_key_type => get_sai_key_type
  | sai_lpm_type => get_sai_lpm_type
  | sai_list_type => get_sai_list_type
  | sai_range_list_type => get_sai_range_list_type
  end.

Definition slot_of_kind (kind : string) : option type_slot :=
  if String.eqb kind "exact" then Some sai_key_type
  else if String.eqb kind "lpm" then Some sai_lpm_type
  else if String.eqb kind "list" then Some sai_list_type
  else if String.eqb kind "range_list" then Some sai_range_list_type
  else None.

(** * Properties *)

(** ** The string operations *)

Lemma prefix_app (needle hay : string) :
  String.prefix needle hay = true <-> exists post, hay = needle +:+ post.
Proof.
  revert hay. induction needle as [|c needle IH]; intros hay.
  - split; [intros _; exists hay; reflexivity | intros _; now destruct hay].
  - destruct hay as [|d hay]; simpl.
    + split; [discriminate | intros [post H]; discriminate].
    + destruct (ascii_dec c d) as [->|Hcd].
      * rewrite IH. split; intros [post H]; exists post.
        -- now rewrite H.
        -- now inversion H.
      * split; [discriminate | intros [post H]].
        injection H as Hd _. congruence.
Qed.

Lemma contains_occurs (needle hay : string) :
  Py.contains needle hay = true <-> occurs_in needle hay.
Proof.
  unfold occurs_in. induction hay as [|d hay IH].
  - cbn [Py.contains]. rewrite orb_false_r, prefix_app. split.
    + intros [post H]. exists EmptyString, post. exact H.
    + intros [[|p pre] [post H]]; [exists post; exact H | discriminate].
  - cbn [Py.contains]. rewrite orb_true_iff, prefix_app, IH. split.
    + intros [[post H] | [pre [post H]]].
      * exists EmptyString, post. exact H.
      * exists (String d pre), post. simpl. now rewrite H.
    + intros [[|p pre] [post H]].
      * left. exists post. exact H.
      * right. exists pre, post. simpl in H. now inversion H.
Qed.

Lemma contains_not_occurs (needle hay : string) :
  Py.contains needle hay = false <-> ~ occurs_in needle hay.
Proof.
  rewrite <- contains_occurs. destruct (Py.contains needle hay); split;
    intros H; try reflexivity; try discriminate; try (intros ?; discriminate).
  now destruct H.
Qed.

Lemma ip_hint_test (key_header key_field : string) :
  Py.contains "addr" key_field || Py.contains "ip" key_header = true
  <-> ip_hint key_header key_field.
Proof. unfold ip_hint. now rewrite orb_true_iff, !contains_occurs. Qed.

Lemma mac_hint_test (key_header key_field : string) :
  Py.contains "addr" key_field || Py.contains "mac" key_header = true
  <-> mac_hint key_header key_field.
Proof. unfold mac_hint. now rewrite orb_true_iff, !contains_occurs. Qed.

Lemma ip_hint_dec (h f : string) : {ip_hint h f} + {~ ip_hint h f}.
Proof.
  destruct (Py.contains "addr" f || Py.contains "ip" h) eqn:E.
  - left. now apply ip_hint_test.
  - right. intros H. apply ip_hint_test in H. congruence.
Qed.

Lemma mac_hint_dec (h f : string) : {mac_hint h f} + {~ mac_hint h f}.
Proof.
  destruct (Py.contains "addr" f || Py.contains "mac" h) eqn:E.
  - left. now apply mac_hint_test.
  - right. intros H. apply mac_hint_test in H. congruence.
Qed.

(** Decide the width and hint tests of a resolver goal. *)
Ltac width_cases :=
  repeat match goal with
    | |- context [Z.eqb ?a ?b] => destruct (Z.eqb_spec a b)
    | |- context [Z.leb ?a ?b] => destruct (Z.leb_spec a b)
    end.

Ltac settle_hint H :=
  let X := fresh "X" in
  match type of H with
  | true = true <-> ?P => assert P by (apply H; reflexivity)
  | false = true <-> ?P =>
      assert (~ P) by (intros X; apply H in X; discriminate X)
  end; clear H.

Ltac hint_cases h f :=
  let Hi := fresh "Hip" in
  let Hm := fresh "Hmac" in
  pose proof (ip_hint_test h f) as Hi;
  pose proof (mac_hint_test h f) as Hm;
  destruct (Py.contains "addr" f || Py.contains "ip" h);
  destruct (Py.contains "addr" f || Py.contains "mac" h);
  settle_hint Hi; settle_hint Hm.

(** ** Key type resolver *)

(** C2: scalar resolution by width band, for every positive width: boolean
    for 1, 8-bit for 2..8, 16-bit for 9..16, the IP address type for 32 with
    an address hint, 32-bit for 17..32 otherwise, the MAC type for 48 with a
    MAC hint, 64-bit for 33..64 otherwise, and [UnsupportedWidth] above 64. *)
Theorem get_sai_key_type_bands (w : Z) (h f : string) :
  0 < w ->
  (w = 1 -> get_sai_key_type w h f = Ok "bool")
  /\ (2 <= w <= 8 -> get_sai_key_type w h f = Ok "sai_uint8_t")
  /\ (9 <= w <= 16 -> get_sai_key_type w h f = Ok "sai_uint16_t")
  /\ (w = 32 -> ip_hint h f -> get_sai_key_type w h f = Ok "sai_ip_address_t")
  /\ (17 <= w <= 32 -> ~ (w = 32 /\ ip_hint h f) ->
      get_sai_key_type w h f = Ok "sai_uint32_t")
  /\ (w = 48 -> mac_hint h f -> get_sai_key_type w h f = Ok "sai_mac_t")
  /\ (33 <= w <= 64 -> ~ (w = 48 /\ mac_hint h f) ->
      get_sai_key_type w h f = Ok "sai_uint64_t")
  /\ (64 < w -> get_sai_key_type w h f = Raise UnsupportedWidth).
Proof.
  intros Hpos. unfold get_sai_key_type.
  hint_cases h f; repeat split; intros;
    width_cases; simpl; try reflexivity; try lia; tauto.
Qed.

Lemma get_sai_key_type_bands_witness :
  0 < 32
  /\ get_sai_key_type 32 "ipv4" "dst" = Ok "sai_ip_address_t"
  /\ get_sai_key_type 48 "ethernet" "src_addr" = Ok "sai_mac_t".
Proof.
  split; [lia | split].
  - apply (get_sai_key_type_bands 32 "ipv4" "dst"); [lia | reflexivity |].
    right. exists EmptyString, "v4". reflexivity.
  - apply (get_sai_key_type_bands 48 "ethernet" "src_addr"); [lia | reflexivity |].
    left. exists "src_", EmptyString. reflexivity.
Defined.

(** C4, as stated, fails: a 32-bit width without address hint and a 48-bit
    width without MAC hint do not raise [UnsupportedWidth]; they fall
    through to the next width band. *)
Lemma get_sai_key_type_unmatched_counterexample :
  (~ occurs_in "addr" "port" /\ ~ occurs_in "ip" "meta"
   /\ get_sai_key_type 32 "meta" "port" <> Raise UnsupportedWidth)
  /\ (~ occurs_in "addr" "port" /\ ~ occurs_in "mac" "meta"
      /\ get_sai_key_type 48 "meta" "port" <> Raise UnsupportedWidth).
Proof.
  repeat split; try (apply contains_not_occurs; reflexivity); discriminate.
Qed.

(** C4 (amended): in scalar mode a 32-bit width without address hint
    resolves to the 32-bit unsigned type and a 48-bit width without MAC hint
    resolves to the 64-bit unsigned type; scalar resolution raises
    [UnsupportedWidth] exactly for the widths above 64. *)
Theorem get_sai_key_type_unmatched (w : Z) (h f : string) :
  (w = 32 -> ~ ip_hint h f -> get_sai_key_type w h f = Ok "sai_uint32_t")
  /\ (w = 48 -> ~ mac_hint h f -> get_sai_key_type w h f = Ok "sai_uint64_t")
  /\ (get_sai_key_type w h f = Raise UnsupportedWidth <-> 64 < w).
Proof.
  unfold get_sai_key_type.
  hint_cases h f; repeat split; width_cases; simpl; intros;
    try reflexivity; try lia; try tauto; discriminate.
Qed.

Lemma get_sai_key_type_unmatched_witness :
  get_sai_key_type 32 "meta" "port" = Ok "sai_uint32_t"
  /\ get_sai_key_type 48 "meta" "port" = Ok "sai_uint64_t".
Proof.
  split.
  - apply (get_sai_key_type_unmatched 32 "meta" "port"); [reflexivity |].
    intros H. apply ip_hint_test in H. vm_compute in H. discriminate H.
  - apply (get_sai_key_type_unmatched 48 "meta" "port"); [reflexivity |].
    intros H. apply mac_hint_test in H. vm_compute in H. discriminate H.
Defined.

(** C5: prefix (lpm) resolution returns the IP prefix type exactly when the
    width is 32 and the address hint is present; every other combination
    raises [UnsupportedWidth]. *)
Theorem get_sai_lpm_type_exact (w : Z) (h f : string) :
  (w = 32 /\ ip_hint h f -> get_sai_lpm_type w h f = Ok "sai_ip_prefix_t")
  /\ (~ (w = 32 /\ ip_hint h f) ->
      get_sai_lpm_type w h f = Raise UnsupportedWidth)
  /\ (forall ty, get_sai_lpm_type w h f = Ok ty ->
      w = 32 /\ ip_hint h f /\ ty = "sai_ip_prefix_t").
Proof.
  unfold get_sai_lpm_type.
  hint_cases h f; (split; [| split]); width_cases; simpl;
    try (intros ty Hty; inversion Hty); intros;
    try reflexivity; try lia; tauto.
Qed.

Lemma get_sai_lpm_type_exact_witness :
  get_sai_lpm_type 32 "ipv4" "dst" = Ok "sai_ip_prefix_t"
  /\ get_sai_lpm_type 24 "ipv4" "dst_addr" = Raise UnsupportedWidth.
Proof.
  split.
  - apply (get_sai_lpm_type_exact 32 "ipv4" "dst"). split; [reflexivity |].
    right. exists EmptyString, "v4". reflexivity.
  - apply (get_sai_lpm_type_exact 24 "ipv4" "dst_addr"). intros [H _]. lia.
Defined.

(** ** Match-field resolver *)

(** The four resolvers raise nothing but [UnsupportedWidth]. *)
Lemma get_sai_key_type_raises w h f e :
  get_sai_key_type w h f = Raise e -> e = UnsupportedWidth.
Proof.
  unfold get_sai_key_type.
  repeat match goal with |- context [if ?b then _ else _] => destruct b end;
    congruence.
Qed.

Lemma get_sai_lpm_type_raises w h f e :
  get_sai_lpm_type w h f = Raise e -> e = UnsupportedWidth.
Proof.
  unfold get_sai_lpm_type.
  repeat match goal with |- context [if ?b then _ else _] => destruct b end;
    congruence.
Qed.

Lemma get_sai_list_type_raises w h f e :
  get_sai_list_type w h f = Raise e -> e = UnsupportedWidth.
Proof.
  unfold get_sai_list_type.
  repeat match goal with |- context [if ?b then _ else _] => destruct b end;
    congruence.
Qed.

Lemma get_sai_range_list_type_raises w h f e :
  get_sai_range_list_type w h f = Raise e -> e = UnsupportedWidth.
Proof.
  unfold get_sai_range_list_type.
  repeat match goal with |- context [if ?b then _ else _] => destruct b end;
    congruence.
Qed.

Lemma key_match_type_tag key tag :
  resolved_tag key tag -> key_match_type key = Ok (Py.lower tag).
Proof.
  unfold resolved_tag, key_match_type.
  intros [-> | [-> ->]]; reflexivity.
Qed.

Lemma key_match_type_none key :
  mf_otherMatchType key = None -> mf_matchType key = None ->
  key_match_type key = Raise InvalidMatchTag.
Proof. unfold key_match_type. now intros -> ->. Qed.

Lemma key_match_type_cases key :
  (mf_otherMatchType key = None /\ mf_matchType key = None)
  \/ exists tag, resolved_tag key tag.
Proof.
  unfold resolved_tag.
  destruct (mf_otherMatchType key) as [o|]; [right; exists o; now left |].
  destruct (mf_matchType key) as [m|]; [right; exists m; now right | now left].
Qed.

(** After the name is taken apart, [get_sai_key_data] is decided by the
    resolved kind alone. *)
Lemma get_sai_key_data_kind key full declared h f kind :
  unpack2 (Py.split ":" (mf_name key)) = Ok (full, declared) ->
  key_hints (Py.split "." full) = Ok (h, f) ->
  key_match_type key = Ok kind ->
  (In kind recognised_kinds ->
   (exists d, get_sai_key_data key = Ok d
              /\ sai_key_name d = declared /\ match_type d = kind)
   \/ get_sai_key_data key = Raise UnsupportedWidth)
  /\ (~ In kind recognised_kinds ->
      get_sai_key_data key = Raise UnsupportedMatchKind).
Proof.
  intros Hn Hh Hk. unfold get_sai_key_data.
  rewrite Hn. cbn [bind fst snd]. rewrite Hh. cbn [bind fst snd].
  rewrite Hk. cbn [bind]. unfold recognised_kinds.
  destruct (String.eqb_spec kind "exact") as [->|Hne1].
  { split; [intros _ | intros []; now left].
    destruct (get_sai_key_type _ h f) as [ty|e] eqn:E; cbn [bind].
    - left. eexists. repeat split.
    - right. now rewrite (get_sai_key_type_raises _ _ _ _ E). }
  destruct (String.eqb_spec kind "lpm") as [->|Hne2].
  { split; [intros _ | intros []; right; now left].
    destruct (get_sai_lpm_type _ h f) as [ty|e] eqn:E; cbn [bind].
    - left. eexists. repeat split.
    - right. now rewrite (get_sai_lpm_type_raises _ _ _ _ E). }
  destruct (String.eqb_spec kind "list") as [->|Hne3].
  { split; [intros _ | intros []; right; right; now left].
    destruct (get_sai_list_type _ h f) as [ty|e] eqn:E; cbn [bind].
    - left. eexists. repeat split.
    - right. now rewrite (get_sai_list_type_raises _ _ _ _ E). }
  destruct (String.eqb_spec kind "range_list") as [->|Hne4].
  { split; [intros _ | intros []; right; right; right; now left].
    destruct (get_sai_range_list_type _ h f) as [ty|e] eqn:E; cbn [bind].
    - left. eexists. repeat split.
    - right. now rewrite (get_sai_range_list_type_raises _ _ _ _ E). }
  split; [| reflexivity].
  simpl. intros [H | [H | [H | [H | []]]]]; congruence.
Qed.

(** C8, as stated for every match field, fails: the name is taken apart
    before the tags are looked at, so a field whose name has no colon ends
    with [UnpackError], not with [InvalidMatchTag] when it has no tag, and
    not with [UnsupportedMatchKind] when its tag is not a recognised kind. *)
Lemma get_sai_key_data_tag_errors_counterexample :
  (mf_matchType (MatchField "foo" 8 None None) = None
   /\ mf_otherMatchType (MatchField "foo" 8 None None) = None
   /\ get_sai_key_data (MatchField "foo" 8 None None) <> Raise InvalidMatchTag)
  /\ (resolved_tag (MatchField "foo" 8 (Some "ternary") None) "ternary"
      /\ ~ In (Py.lower "ternary") recognised_kinds
      /\ get_sai_key_data (MatchField "foo" 8 (Some "ternary") None)
         <> Raise UnsupportedMatchKind).
Proof.
  split; (split; [| split]); try reflexivity; try discriminate.
  - right. split; reflexivity.
  - vm_compute. intros [H | [H | [H | [H | []]]]]; discriminate H.
Qed.

(** C8 (amended): for a match field whose name has the shape
    [path:declared], with one colon and a path of two or three dotted
    segments, resolution raises [InvalidMatchTag] exactly when the field has
    neither a [matchType] nor an [otherMatchType] tag, and raises
    [UnsupportedMatchKind] exactly when the tag it is resolved by
    ([otherMatchType] when present, [matchType] otherwise) is, once
    lowercased, none of [exact], [lpm], [list], [range_list]. *)
Theorem get_sai_key_data_tag_errors (key : match_field) :
  name_shape (mf_name key) ->
  (get_sai_key_data key = Raise InvalidMatchTag
   <-> mf_matchType key = None /\ mf_otherMatchType key = None)
  /\ (get_sai_key_data key = Raise UnsupportedMatchKind
      <-> exists tag, resolved_tag key tag
                      /\ ~ In (Py.lower tag) recognised_kinds).
Proof.
  intros (full & declared & [h f] & Hn & Hh).
  destruct (key_match_type_cases key) as [[Ho Hm] | [tag Htag]].
  - assert (get_sai_key_data key = Raise InvalidMatchTag) as Hr.
    { unfold get_sai_key_data. rewrite Hn. cbn [bind fst snd].
      rewrite Hh. cbn [bind fst snd].
      now rewrite (key_match_type_none key Ho Hm). }
    rewrite Hr. split; [tauto |]. split; [discriminate |].
    intros (tag & [H | [_ H]] & _); congruence.
  - pose proof (key_match_type_tag key tag Htag) as Hk.
    destruct (get_sai_key_data_kind key full declared h f _ Hn Hh Hk)
      as [Hin Hout].
    assert (forall tag', resolved_tag key tag' -> tag' = tag) as Huniq.
    { intros tag' H'. unfold resolved_tag in *.
      destruct Htag as [H | [H1 H2]], H' as [H' | [H1' H2']]; congruence. }
    destruct (in_dec string_dec (Py.lower tag) recognised_kinds) as [Hi|Hi].
    + destruct (Hin Hi) as [(d & -> & _) | ->].
      * split; (split; [discriminate |]).
        -- intros [Hm Ho]. destruct Htag as [H | [_ H]]; congruence.
        -- intros (tag' & H' & Hni). now rewrite (Huniq _ H') in Hni.
      * split; (split; [discriminate |]).
        -- intros [Hm Ho]. destruct Htag as [H | [_ H]]; congruence.
        -- intros (tag' & H' & Hni). now rewrite (Huniq _ H') in Hni.
    + rewrite (Hout Hi). split.
      * split; [discriminate |].
        intros [Hm Ho]. destruct Htag as [H | [_ H]]; congruence.
      * split; [intros _; now exists tag | reflexivity].
Qed.

Lemma get_sai_key_data_tag_errors_witness :
  get_sai_key_data (MatchField "hdr.ipv4.dst:ip_addr" 32 None None)
    = Raise InvalidMatchTag
  /\ get_sai_key_data (MatchField "hdr.ipv4.dst:ip_addr" 32 (Some "TERNARY") None)
    = Raise UnsupportedMatchKind.
Proof.
  split.
  - apply (get_sai_key_data_tag_errors
             (MatchField "hdr.ipv4.dst:ip_addr" 32 None None)).
    + exists "hdr.ipv4.dst", "ip_addr", ("ipv4", "dst"). split; reflexivity.
    + split; reflexivity.
  - apply (get_sai_key_data_tag_errors
             (MatchField "hdr.ipv4.dst:ip_addr" 32 (Some "TERNARY") None)).
    + exists "hdr.ipv4.dst", "ip_addr", ("ipv4", "dst"). split; reflexivity.
    + exists "TERNARY". split; [right; split; reflexivity |].
      vm_compute. intros [H | [H | [H | [H | []]]]]; discriminate H.
Defined.

(** X7: outside the expected name shape the tags and the width are never
    looked at: taking the name apart already fails, with [UnpackError]. *)
Lemma get_sai_key_data_unpack (key : match_field) :
  ~ name_shape (mf_name key) -> get_sai_key_data key = Raise UnpackError.
Proof.
  intros Hshape. unfold get_sai_key_data.
  assert (forall A (l : list A) e, unpack2 l = Raise e -> e = UnpackError)
    as Hunpack.
  { intros A [|a [|b [|c l]]] e; simpl; congruence. }
  destruct (unpack2 (Py.split ":" (mf_name key))) as [[full declared]|e] eqn:En;
    cbn [bind fst snd].
  - destruct (key_hints (Py.split "." full)) as [hints|e] eqn:Eh;
      cbn [bind fst snd].
    + exfalso. apply Hshape. now exists full, declared, hints.
    + f_equal. unfold key_hints in Eh.
      destruct (Py.split "." full) as [|a [|b [|c [|d l]]]];
        simpl in Eh; congruence.
  - f_equal. eauto.
Qed.

(** C10: when a match field carries both tags, the match kind is the
    lowercased [otherMatchType]; the [matchType] tag has no influence on the
    resolution. *)
Theorem get_sai_key_data_other_first (key : match_field) (other mt : string) :
  mf_otherMatchType key = Some other ->
  mf_matchType key = Some mt ->
  key_match_type key = Ok (Py.lower other)
  /\ (forall d, get_sai_key_data key = Ok d -> match_type d = Py.lower other)
  /\ (forall mt', get_sai_key_data (with_matchType mt' key)
                  = get_sai_key_data key).
Proof.
  intros Ho Hm.
  assert (key_match_type key = Ok (Py.lower other)) as Hk.
  { unfold key_match_type. now rewrite Ho. }
  split; [exact Hk | split].
  - intros d. unfold get_sai_key_data. rewrite Hk.
    destruct (unpack2 _) as [names|]; cbn [bind]; [| discriminate].
    destruct (key_hints _) as [hints|]; cbn [bind]; [| discriminate].
    repeat match goal with
      | |- context [if ?b then _ else _] => destruct b
      | |- context [bind ?r _] => destruct r; cbn [bind]
      end; intros H; inversion H; reflexivity.
  - intros mt'. unfold get_sai_key_data, key_match_type, with_matchType.
    cbn [mf_name mf_bitwidth mf_otherMatchType mf_matchType].
    now rewrite Ho.
Qed.

Lemma get_sai_key_data_other_first_witness :
  key_match_type (MatchField "meta.port:port" 16 (Some "EXACT") (Some "List"))
  = Ok "list".
Proof.
  exact (proj1 (get_sai_key_data_other_first
                  (MatchField "meta.port:port" 16 (Some "EXACT") (Some "List"))
                  "List" "EXACT" eq_refl eq_refl)).
Defined.

(** ** Loops *)

Lemma for_each_ext {A S : Type} (body1 body2 : S -> A -> result S)
    (l : list A) (s : S) :
  (forall s x, body1 s x = body2 s x) ->
  for_each body1 l s = for_each body2 l s.
Proof.
  intros Hext. revert s. induction l as [|x l IH]; intros s; simpl.
  - reflexivity.
  - rewrite Hext. destruct (body2 s x); simpl; [apply IH | reflexivity].
Qed.

Lemma for_each_invariant {A S : Type} (P : S -> Prop)
    (body : S -> A -> result S) (l : list A) (s r : S) :
  P s ->
  (forall s x s', P s -> In x l -> body s x = Ok s' -> P s') ->
  for_each body l s = Ok r -> P r.
Proof.
  revert s. induction l as [|x l IH]; intros s Hs Hstep; simpl.
  - intros [= <-]. exact Hs.
  - destruct (body s x) as [s'|e] eqn:E; simpl; [| discriminate].
    apply IH.
    + apply (Hstep s x s' Hs); [now left | exact E].
    + intros s1 y s2 H1 Hy. apply Hstep; [exact H1 | now right].
Qed.

(** A loop that appends at most one item per pass returns the start list
    followed by the items of the passes, in order. *)
Lemma for_each_collect {A B : Type} (pass : A -> result (option B))
    (l : list A) (acc out : list B) :
  for_each (collect_body pass) l acc = Ok out ->
  exists rs, Forall2 (fun x r => pass x = Ok r) l rs
             /\ out = (acc ++ omap id rs)%list.
Proof.
  revert acc. induction l as [|x l IH]; intros acc; simpl.
  - intros [= <-]. exists []. split; [constructor |].
    simpl. now rewrite app_nil_r.
  - unfold collect_body at 1. destruct (pass x) as [r|e] eqn:E; simpl;
      [| discriminate].
    destruct r as [b|]; simpl; intros H;
      destruct (IH _ H) as (rs & Hrs & ->).
    + exists (Some b :: rs). split; [now constructor |].
      simpl. now rewrite <- app_assoc.
    + exists (None :: rs). split; [now constructor | reflexivity].
Qed.

Lemma for_each_collect_ok {A B : Type} (pass : A -> result (option B))
    (l : list A) (acc : list B) (rs : list (option B)) :
  Forall2 (fun x r => pass x = Ok r) l rs ->
  for_each (collect_body pass) l acc = Ok (acc ++ omap id rs)%list.
Proof.
  intros H. revert acc. induction H as [|x r l rs Hx _ IH]; intros acc; simpl.
  - now rewrite app_nil_r.
  - unfold collect_body at 1. rewrite Hx. simpl.
    destruct r as [b|]; simpl; rewrite IH; [| reflexivity].
    now rewrite <- app_assoc.
Qed.

(** ** The loops of the table pass *)

Lemma keys_loop (mfs : list match_field) (acc ks : list sai_key_data) :
  for_each append_key mfs acc = Ok ks ->
  exists ks', ks = (acc ++ ks')%list
              /\ Forall2 (fun mf k => get_sai_key_data mf = Ok k) mfs ks'.
Proof.
  revert acc. induction mfs as [|mf mfs IH]; intros acc; simpl.
  - intros [= <-]. exists []. split; [now rewrite app_nil_r | constructor].
  - unfold append_key at 1.
    destruct (get_sai_key_data mf) as [k|e] eqn:E; simpl; [| discriminate].
    intros H. destruct (IH _ H) as (ks' & -> & Hks').
    exists (k :: ks'). split; [now rewrite <- app_assoc | now constructor].
Qed.

Lemma actions_loop (all_actions : gmap Z sai_action) (refs : list Z)
    (acc acts : list sai_action) :
  for_each (append_action all_actions) refs acc = Ok acts ->
  exists descs,
    Forall2 (fun id a => all_actions !! id = Some a) refs descs
    /\ acts = (acc ++ filter (fun a => sa_name a <> NOACTION) descs)%list.
Proof.
  revert acc. induction refs as [|id refs IH]; intros acc; simpl.
  - intros [= <-]. exists []. split; [constructor | now rewrite app_nil_r].
  - unfold append_action at 1, lookup_action.
    destruct (all_actions !! id) as [a|] eqn:E; simpl; [| discriminate].
    destruct (String.eqb_spec (sa_name a) NOACTION) as [Heq|Hne]; simpl;
      intros H; destruct (IH _ H) as (descs & Hdescs & ->);
      exists (a :: descs); (split; [now constructor |]);
      rewrite filter_cons; destruct (decide (sa_name a <> NOACTION));
      try contradiction; try reflexivity.
    now rewrite <- app_assoc.
Qed.

(** ** Table classification *)

Lemma get_sai_key_data_declared (mf : match_field) (k : sai_key_data) :
  get_sai_key_data mf = Ok k -> declared_name mf = Ok (sai_key_name k).
Proof.
  unfold get_sai_key_data, declared_name.
  destruct (unpack2 _) as [names|]; cbn [bind]; [| discriminate].
  destruct (key_hints _) as [hints|]; cbn [bind]; [| discriminate].
  destruct (key_match_type mf) as [kind|]; cbn [bind]; [| discriminate].
  repeat match goal with
    | |- context [if ?b then _ else _] => destruct b
    | |- context [bind ?r _] => destruct r; cbn [bind]
    end; intros H; inversion H; reflexivity.
Qed.

(** What a pass of the table loop that emits a descriptor has computed. *)
Lemma sai_table_emitted all_actions ignore_tables t d :
  sai_table all_actions ignore_tables t = Ok (Some d) ->
  exists control table_name ks acts,
    unpack2 (Py.split1 "." (t_name t)) = Ok (control, table_name)
    /\ Py.mem (Py.replace "." "_" table_name) ignore_tables = false
    /\ Forall2 (fun mf k => get_sai_key_data mf = Ok k) (t_matchFields t) ks
    /\ for_each (append_action all_actions) (t_actionRefs t) [] = Ok acts
    /\ d = classify table_name (Py.replace "." "_" table_name) ks acts.
Proof.
  unfold sai_table.
  destruct (unpack2 _) as [[control table_name]|]; cbn [bind snd];
    [| discriminate].
  destruct (Py.mem _ ignore_tables) eqn:Hmem; [discriminate |].
  destruct (for_each append_key _ []) as [ks|] eqn:Hks; cbn [bind];
    [| discriminate].
  destruct (for_each (append_action _) _ []) as [acts|] eqn:Ha; cbn [bind];
    [| discriminate].
  intros [= <-]. exists control, table_name, ks, acts.
  destruct (keys_loop _ _ _ Hks) as (ks' & -> & Hks'). simpl.
  repeat split; assumption.
Qed.

(** For resolved keys, the single-id-key test of the input table is the
    test the classification makes on the key descriptors. *)
Lemma intrinsic_id_keys t control table_name ks :
  unpack2 (Py.split1 "." (t_name t)) = Ok (control, table_name) ->
  Forall2 (fun mf k => get_sai_key_data mf = Ok k) (t_matchFields t) ks ->
  intrinsic_id t <->
  exists k, ks = [k]
            /\ sai_key_name k
               = Py.last_item (Py.split "." table_name) +:+ "_id".
Proof.
  intros Hn Hks.
  unfold intrinsic_id, base_name. rewrite Hn. cbn [bind snd]. split.
  - intros (mf & b & Hmf & [= <-] & Hd). rewrite Hmf in Hks.
    inversion Hks as [|? k ? ks' Hk Hrest]; subst. inversion Hrest; subst.
    exists k. split; [reflexivity |].
    apply get_sai_key_data_declared in Hk. congruence.
  - intros (k & -> & Hk). inversion Hks as [|mf ? mfs ? Hmf Hrest]; subst.
    inversion Hrest; subst. exists mf, (Py.last_item (Py.split "." table_name)).
    repeat split. apply get_sai_key_data_declared in Hmf. congruence.
Qed.

(** C1: an emitted descriptor is an object exactly when the table has a
    single key declared as [<base name>_id] or has more than five keys;
    otherwise [is_object] is ['false'] and the name is the derived name with
    [_entry] appended. *)
Theorem sai_table_is_object all_actions ignore_tables t d :
  sai_table all_actions ignore_tables t = Ok (Some d) ->
  (is_object d = "true"
   <-> intrinsic_id t \/ (5 < List.length (t_matchFields t))%nat)
  /\ (~ (intrinsic_id t \/ (5 < List.length (t_matchFields t))%nat) ->
      is_object d = "false"
      /\ exists n, derived_name t = Ok n /\ name d = n +:+ "_entry").
Proof.
  intros H.
  destruct (sai_table_emitted _ _ _ _ H)
    as (control & table_name & ks & acts & Hn & _ & Hks & _ & ->).
  pose proof (Forall2_length _ _ _ Hks) as Hlen.
  pose proof (intrinsic_id_keys t control table_name ks Hn Hks) as Hintr.
  rewrite Hintr, Hlen. unfold classify, derived_name. rewrite Hn.
  cbn [bind snd].
  destruct ks as [|k [|k' ks]]; cbn [List.length Nat.eqb andb lookup list_lookup].
  - simpl. split.
    + split; [discriminate | intros [(k & Hk & _) | Hl]; [discriminate | lia]].
    + intros _. split; [reflexivity | eexists; split; reflexivity].
  - simpl. destruct (String.eqb_spec (sai_key_name k)
               (Py.last_item (Py.split "." table_name) +:+ "_id")) as [He|Hne];
      simpl.
    + split; [split; [intros _; left; now exists k | reflexivity] |].
      intros Hnot. exfalso. apply Hnot. left. now exists k.
    + split.
      * split; [discriminate |].
        intros [(k0 & [= <-] & Hk) | Hl]; [contradiction | lia].
      * intros _. split; [reflexivity | eexists; split; reflexivity].
  - cbn [andb]. destruct (Nat.ltb_spec 5 (S (S (List.length ks)))) as [Hgt|Hle];
      simpl.
    + split; [split; [intros _; now right | reflexivity] |].
      intros Hnot. exfalso. apply Hnot. now right.
    + split.
      * split; [discriminate |].
        intros [(k0 & Hk & _) | Hl]; [discriminate | lia].
      * intros _. split; [reflexivity | eexists; split; reflexivity].
Qed.

Lemma sai_table_is_object_witness :
  (is_object (classify "acl.stage1" "acl_stage1"
     [SaiKey "a" "exact" sai_key_type "bool";
      SaiKey "b" "exact" sai_key_type "sai_uint8_t";
      SaiKey "c" "exact" sai_key_type "sai_uint16_t";
      SaiKey "d" "exact" sai_key_type "sai_uint32_t";
      SaiKey "e" "exact" sai_key_type "sai_uint64_t";
      SaiKey "f" "range_list" sai_range_list_type "sai_u64_range_list_t"] [])
   = "true")
  /\ is_object (classify "my_table" "my_table"
       [SaiKey "ip_addr" "lpm" sai_lpm_type "sai_ip_prefix_t"] []) = "false".
Proof.
  split.
  - apply (sai_table_is_object ∅ [] six_keys_table _ eq_refl).
    right. simpl. lia.
  - apply (sai_table_is_object ∅ [] my_table _ eq_refl).
    intros [(mf & b & Hmf & Hb & Hd) | Hl]; [| simpl in Hl; lia].
    injection Hmf as <-. vm_compute in Hb. injection Hb as <-.
    vm_compute in Hd. discriminate Hd.
Defined.

(** C3: a table whose only match field is declared as [<base name>_id] is
    emitted as an object with an empty key list, whatever the match kind of
    that field. *)
Theorem sai_table_intrinsic_id all_actions ignore_tables t d mf b :
  sai_table all_actions ignore_tables t = Ok (Some d) ->
  t_matchFields t = [mf] ->
  base_name t = Ok b ->
  declared_name mf = Ok (b +:+ "_id") ->
  is_object d = "true" /\ keys d = [].
Proof.
  intros H Hmf Hb Hd.
  destruct (sai_table_emitted _ _ _ _ H)
    as (control & table_name & ks & acts & Hn & _ & Hks & _ & ->).
  assert (intrinsic_id t) as Hi by (now exists mf, b).
  apply (intrinsic_id_keys t control table_name ks Hn Hks) in Hi.
  destruct Hi as (k & -> & Hk). unfold classify. simpl.
  rewrite Hk, String.eqb_refl. simpl. split; reflexivity.
Qed.

Lemma sai_table_intrinsic_id_witness :
  sai_table ∅ [] port_table = Ok (Some (SaiTable [] [] "port" "true"))
  /\ (is_object (SaiTable [] [] "port" "true") = "true"
      /\ keys (SaiTable [] [] "port" "true") = [])
  /\ sai_table ∅ [] port_list_table = Ok (Some (SaiTable [] [] "port" "true")).
Proof.
  split; [reflexivity | split; [| reflexivity]].
  apply (sai_table_intrinsic_id ∅ [] port_table _
           (MatchField "hdr.port.port_id:port_id" 16 (Some "exact") None)
           "port"); reflexivity.
Defined.

(** ** Schema assembly *)

Lemma mem_In (x : string) (l : list string) : Py.mem x l = true <-> In x l.
Proof.
  unfold Py.mem. rewrite existsb_exists. split.
  - intros (y & Hy & Heq). apply String.eqb_eq in Heq. now subst.
  - intros H. exists x. split; [exact H | apply String.eqb_refl].
Qed.

Lemma sai_table_skip all_actions ignore_tables t r :
  sai_table all_actions ignore_tables t = Ok r ->
  (r = None <-> excluded ignore_tables t = true).
Proof.
  unfold sai_table, excluded, derived_name.
  destruct (unpack2 _) as [names|]; cbn [bind]; [| discriminate].
  destruct (Py.mem _ ignore_tables).
  - intros [= <-]. tauto.
  - destruct (for_each append_key _ _); cbn [bind]; [| discriminate].
    destruct (for_each (append_action _) _ _); cbn [bind]; [| discriminate].
    intros [= <-]. split; discriminate.
Qed.

(** The descriptors of a successful run are those of the passes over the
    tables that are not excluded, in the order of the tables. *)
Lemma generate_sai_api_kept prog ignore_tables api :
  generate_sai_api prog ignore_tables = Ok api ->
  exists all_actions,
    extract_action_data prog = Ok all_actions
    /\ Forall2 (fun t d => sai_table all_actions ignore_tables t = Ok (Some d))
         (List.filter (included ignore_tables) (p_tables prog)) (tables api).
Proof.
  unfold generate_sai_api.
  destruct (extract_action_data prog) as [all_actions|]; cbn [bind];
    [| discriminate].
  destruct (for_each _ (p_tables prog) []) as [sai_tables|] eqn:Hloop;
    cbn [bind]; [| discriminate].
  intros [= <-]. exists all_actions. split; [reflexivity |]. cbn [tables].
  change (append_table all_actions ignore_tables)
    with (collect_body (sai_table all_actions ignore_tables)) in Hloop.
  apply for_each_collect in Hloop. destruct Hloop as (rs & Hrs & ->).
  cbn [app]. induction Hrs as [|t r ts rs Ht _ IH]; [constructor |].
  pose proof (sai_table_skip _ _ _ _ Ht) as Hskip.
  cbn [List.filter omap list_omap]. unfold included at 1.
  destruct r as [d|]; cbn [id].
  - destruct (excluded ignore_tables t).
    + destruct Hskip as [_ Hs]. specialize (Hs eq_refl). discriminate Hs.
    + cbn [negb]. now constructor.
  - destruct (excluded ignore_tables t); [exact IH |].
    destruct Hskip as [Hs _]. specialize (Hs eq_refl). discriminate Hs.
Qed.

(** Conversely, the run succeeds as soon as the action model is built and
    every pass of the table loop succeeds. *)
Lemma generate_sai_api_ok prog ignore_tables all_actions rs :
  extract_action_data prog = Ok all_actions ->
  Forall2 (fun t r => sai_table all_actions ignore_tables t = Ok r)
    (p_tables prog) rs ->
  generate_sai_api prog ignore_tables = Ok (SaiApi (omap id rs)).
Proof.
  intros Ha Hrs. unfold generate_sai_api. rewrite Ha. cbn [bind].
  change (append_table all_actions ignore_tables)
    with (collect_body (sai_table all_actions ignore_tables)).
  now rewrite (for_each_collect_ok _ _ [] rs Hrs).
Qed.

Lemma classify_actions table_name sai_name ks acts :
  actions (classify table_name sai_name ks acts) = acts.
Proof.
  unfold classify.
  repeat match goal with |- context [if ?b then _ else _] => destruct b end;
    reflexivity.
Qed.

Lemma classify_name table_name sai_name ks acts :
  name (classify table_name sai_name ks acts) = sai_name
  \/ name (classify table_name sai_name ks acts) = sai_name +:+ "_entry".
Proof.
  unfold classify.
  repeat match goal with |- context [if ?b then _ else _] => destruct b end;
    simpl; tauto.
Qed.

(** C7: the descriptors of the final model are those of the input tables
    whose derived name (before any [_entry] suffix) is not in the exclusion
    list, one descriptor per such table, in the order of the input. *)
Theorem generate_sai_api_tables prog ignore_tables api :
  generate_sai_api prog ignore_tables = Ok api ->
  exists all_actions,
    extract_action_data prog = Ok all_actions
    /\ Forall2
         (fun t d =>
            sai_table all_actions ignore_tables t = Ok (Some d)
            /\ exists n, derived_name t = Ok n
                         /\ ~ In n ignore_tables
                         /\ (name d = n \/ name d = n +:+ "_entry"))
         (List.filter (included ignore_tables) (p_tables prog))
         (tables api).
Proof.
  intros H. destruct (generate_sai_api_kept _ _ _ H) as (all_actions & Ha & Hk).
  exists all_actions. split; [exact Ha |].
  eapply Forall2_impl; [exact Hk |]. intros t d Ht. split; [exact Ht |].
  destruct (sai_table_emitted _ _ _ _ Ht)
    as (control & table_name & ks & acts & Hn & Hmem & _ & _ & ->).
  exists (Py.replace "." "_" table_name). unfold derived_name. rewrite Hn.
  split; [reflexivity | split; [| apply classify_name]].
  rewrite <- mem_In. now rewrite Hmem.
Qed.

Lemma generate_sai_api_tables_witness :
  List.length (tables sample_api) = 3%nat
  /\ exists all_actions,
      extract_action_data sample_program = Ok all_actions
      /\ Forall2
           (fun t d =>
              sai_table all_actions ["port"] t = Ok (Some d)
              /\ exists n, derived_name t = Ok n
                           /\ ~ In n ["port"]
                           /\ (name d = n \/ name d = n +:+ "_entry"))
           [routing_table; routing_table; six_keys_table]
           (tables sample_api).
Proof.
  split; [reflexivity |].
  exact (generate_sai_api_tables sample_program ["port"] sample_api eq_refl).
Defined.

(** C6: no descriptor named [NoAction] is in the action list of a table of
    the final model; the action list is the list of the referenced
    descriptors, in reference order, without those named [NoAction]. *)
Theorem generate_sai_api_no_noaction prog ignore_tables api :
  generate_sai_api prog ignore_tables = Ok api ->
  Forall (fun d => Forall (fun a => sa_name a <> NOACTION) (actions d))
    (tables api)
  /\ exists all_actions,
      extract_action_data prog = Ok all_actions
      /\ Forall2
           (fun t d =>
              exists descs,
                Forall2 (fun id a => all_actions !! id = Some a)
                  (t_actionRefs t) descs
                /\ actions d = filter (fun a => sa_name a <> NOACTION) descs)
           (List.filter (included ignore_tables) (p_tables prog))
           (tables api).
Proof.
  intros H. destruct (generate_sai_api_kept _ _ _ H) as (all_actions & Ha & Hk).
  assert (Forall2
            (fun t d =>
               exists descs,
                 Forall2 (fun id a => all_actions !! id = Some a)
                   (t_actionRefs t) descs
                 /\ actions d = filter (fun a => sa_name a <> NOACTION) descs)
            (List.filter (included ignore_tables) (p_tables prog))
            (tables api)) as Hacts.
  { eapply Forall2_impl; [exact Hk |]. intros t d Ht.
    destruct (sai_table_emitted _ _ _ _ Ht)
      as (control & table_name & ks & acts & _ & _ & _ & Hloop & ->).
    destruct (actions_loop _ _ _ _ Hloop) as (descs & Hdescs & ->).
    exists descs. split; [exact Hdescs | apply classify_actions]. }
  split; [| exists all_actions; split; [exact Ha | exact Hacts]].
  clear -Hacts. induction Hacts as [|t d ts ds (descs & _ & Hd) _ IH];
    constructor; [| exact IH].
  rewrite Hd. apply Forall_forall. intros a Hin.
  apply list_elem_of_filter in Hin. tauto.
Qed.

Lemma generate_sai_api_no_noaction_witness :
  (actions <$> tables sample_api) !! 0%nat
  = Some [SaiAction 2 "set_nexthop"
            [SaiParam 1 "nexthop_addr" "sai_ip_address_t";
             SaiParam 2 "port" "sai_uint16_t"];
          SaiAction 3 "drop" [];
          SaiAction 2 "set_nexthop"
            [SaiParam 1 "nexthop_addr" "sai_ip_address_t";
             SaiParam 2 "port" "sai_uint16_t"]]
  /\ Forall (fun d => Forall (fun a => sa_name a <> NOACTION) (actions d))
       (tables sample_api).
Proof.
  split; [reflexivity |].
  exact (proj1 (generate_sai_api_no_noaction sample_program ["port"]
                  sample_api eq_refl)).
Defined.

(** C9: the final model is a function of the document and of the exclusion
    set alone: two runs on the same document, with exclusion lists that hold
    the same names, end the same way. *)
Theorem generate_sai_api_deterministic prog1 prog2 ignore1 ignore2 :
  prog1 = prog2 ->
  (forall n, In n ignore1 <-> In n ignore2) ->
  generate_sai_api prog1 ignore1 = generate_sai_api prog2 ignore2.
Proof.
  intros <- Hsame.
  assert (forall n, Py.mem n ignore1 = Py.mem n ignore2) as Hmem.
  { intros n. pose proof (mem_In n ignore1) as H1.
    pose proof (mem_In n ignore2) as H2. specialize (Hsame n).
    destruct (Py.mem n ignore1), (Py.mem n ignore2); try reflexivity.
    - symmetry. apply H2, Hsame, H1. reflexivity.
    - apply H1, Hsame, H2. reflexivity. }
  unfold generate_sai_api.
  destruct (extract_action_data prog1) as [all_actions|]; cbn [bind];
    [| reflexivity].
  rewrite (for_each_ext (append_table all_actions ignore1)
             (append_table all_actions ignore2)); [reflexivity |].
  intros acc t. unfold append_table, sai_table.
  destruct (unpack2 _) as [names|]; cbn [bind]; [| reflexivity].
  now rewrite Hmem.
Qed.

Lemma generate_sai_api_deterministic_witness :
  generate_sai_api sample_program ["port"; "routing"]
  = generate_sai_api sample_program ["routing"; "port"; "routing"].
Proof.
  apply (generate_sai_api_deterministic sample_program sample_program
           ["port"; "routing"] ["routing"; "port"; "routing"] eq_refl).
  intros n. simpl. tauto.
Defined.

(** ** Names *)

Lemma split_nonempty (sep : ascii) (s : string) : Py.split sep s <> [].
Proof.
  destruct s as [|c s]; simpl; [discriminate |].
  destruct (Ascii.eqb c sep); [discriminate |].
  destruct (Py.split sep s); discriminate.
Qed.

Lemma split1_split (sep : ascii) (s control rest : string) :
  Py.split1 sep s = [control; rest] ->
  Py.split sep s = control :: Py.split sep rest.
Proof.
  revert control. induction s as [|c s IH]; intros control; simpl.
  - discriminate.
  - destruct (Ascii.eqb c sep).
    + now intros [= <- <-].
    + destruct (Py.split1 sep s) as [|seg [|seg' [|? ?]]]; try discriminate.
      intros [= <- <-]. now rewrite (IH seg eq_refl).
Qed.

(** The base name of a table is the last dotted segment of its qualified
    name: dropping the control block does not change it. *)
Lemma base_name_last_segment (t : table) (b : string) :
  base_name t = Ok b -> b = Py.last_item (Py.split "." (t_name t)).
Proof.
  unfold base_name, unpack2.
  destruct (Py.split1 "." (t_name t)) as [|control [|rest [|? ?]]] eqn:E;
    cbn [bind snd]; try discriminate.
  intros [= <-]. rewrite (split1_split _ _ _ _ E). unfold Py.last_item.
  pose proof (split_nonempty "." rest) as Hne.
  destruct (Py.split "." rest); [contradiction | reflexivity].
Qed.

(** Every descriptor of the action model is filed under its own id and
    carries the last dotted segment of the name of an action of the
    document with that id. *)
Lemma extract_action_data_names prog all_actions id a :
  extract_action_data prog = Ok all_actions ->
  all_actions !! id = Some a ->
  sa_id a = id
  /\ exists act, In act (p_actions prog)
                 /\ a_id act = id
                 /\ sa_name a = Py.last_item (Py.split "." (a_name act)).
Proof.
  unfold extract_action_data. intros Hrun. revert id a.
  apply (for_each_invariant
           (fun m : gmap Z sai_action =>
              forall id a, m !! id = Some a ->
                sa_id a = id
                /\ exists act, In act (p_actions prog)
                               /\ a_id act = id
                               /\ sa_name a
                                  = Py.last_item (Py.split "." (a_name act)))
           extract_action (p_actions prog) ∅ all_actions); [| | exact Hrun].
  - intros id a H. now rewrite lookup_empty in H.
  - intros m act m' Hm Hin. unfold extract_action.
    destruct (match a_params act with
              | Some ps => for_each extract_param ps []
              | None => Ok []
              end) as [params|]; cbn [bind]; [| discriminate].
    intros [= <-] id a. destruct (decide (a_id act = id)) as [<-|Hne].
    + rewrite lookup_insert_eq. intros [= <-]. simpl.
      split; [reflexivity | exists act; repeat split; assumption].
    + rewrite lookup_insert_ne by exact Hne. apply Hm.
Qed.

(** * Further properties *)

(** ** List and range-list resolvers *)

(** X1: list resolution by width band.  Everything up to 8 bits, width 1
    included, is an 8-bit list; 9..16 a 16-bit list; 32 with an address hint
    the IP address list; 17..32 otherwise a 32-bit list; 33..64 a 64-bit
    list whatever the hints (48 included); the resolver raises
    [UnsupportedWidth] exactly above 64. *)
Theorem get_sai_list_type_bands (w : Z) (h f : string) :
  (w <= 8 -> get_sai_list_type w h f = Ok "sai_u8_list_t")
  /\ (9 <= w <= 16 -> get_sai_list_type w h f = Ok "sai_u16_list_t")
  /\ (w = 32 -> ip_hint h f ->
      get_sai_list_type w h f = Ok "sai_ip_address_list_t")
  /\ (17 <= w <= 32 -> ~ (w = 32 /\ ip_hint h f) ->
      get_sai_list_type w h f = Ok "sai_u32_list_t")
  /\ (33 <= w <= 64 -> get_sai_list_type w h f = Ok "sai_u64_list_t")
  /\ (get_sai_list_type w h f = Raise UnsupportedWidth <-> 64 < w).
Proof.
  unfold get_sai_list_type.
  hint_cases h f; repeat split; width_cases; simpl; intros;
    try reflexivity; try lia; try tauto; discriminate.
Qed.

Lemma get_sai_list_type_bands_witness :
  get_sai_list_type 1 "meta" "flag" = Ok "sai_u8_list_t"
  /\ get_sai_list_type 48 "ethernet" "src_addr" = Ok "sai_u64_list_t".
Proof.
  split.
  - apply (get_sai_list_type_bands 1 "meta" "flag"). lia.
  - apply (get_sai_list_type_bands 48 "ethernet" "src_addr"). lia.
Defined.

(** X2: range-list resolution by width band, with the same bands as the
    list resolver and the range-list types. *)
Theorem get_sai_range_list_type_bands (w : Z) (h f : string) :
  (w <= 8 -> get_sai_range_list_type w h f = Ok "sai_u8_range_list_t")
  /\ (9 <= w <= 16 -> get_sai_range_list_type w h f = Ok "sai_u16_range_list_t")
  /\ (w = 32 -> ip_hint h f ->
      get_sai_range_list_type w h f = Ok "sai_ipaddr_range_list_t")
  /\ (17 <= w <= 32 -> ~ (w = 32 /\ ip_hint h f) ->
      get_sai_range_list_type w h f = Ok "sai_u32_range_list_t")
  /\ (33 <= w <= 64 ->
      get_sai_range_list_type w h f = Ok "sai_u64_range_list_t")
  /\ (get_sai_range_list_type w h f = Raise UnsupportedWidth <-> 64 < w).
Proof.
  unfold get_sai_range_list_type.
  hint_cases h f; repeat split; width_cases; simpl; intros;
    try reflexivity; try lia; try tauto; discriminate.
Qed.

Lemma get_sai_range_list_type_bands_witness :
  get_sai_range_list_type 32 "ipv4" "dst" = Ok "sai_ipaddr_range_list_t"
  /\ get_sai_range_list_type 16 "tcp" "dst_port" = Ok "sai_u16_range_list_t".
Proof.
  split.
  - apply (get_sai_range_list_type_bands 32 "ipv4" "dst"); [reflexivity |].
    right. exists EmptyString, "v4". reflexivity.
  - apply (get_sai_range_list_type_bands 16 "tcp" "dst_port"). lia.
Defined.

(** X3: the four resolvers read the address hint alike: whenever prefix
    resolution succeeds, the scalar, list and range-list resolvers return
    their IP address types for the same width and hints. *)
Theorem lpm_resolves_as_ip_address (w : Z) (h f ty : string) :
  get_sai_lpm_type w h f = Ok ty ->
  get_sai_key_type w h f = Ok "sai_ip_address_t"
  /\ get_sai_list_type w h f = Ok "sai_ip_address_list_t"
  /\ get_sai_range_list_type w h f = Ok "sai_ipaddr_range_list_t".
Proof.
  unfold get_sai_lpm_type, get_sai_key_type, get_sai_list_type,
    get_sai_range_list_type.
  destruct (Z.eqb_spec w 32) as [->|Hne]; simpl; [| discriminate].
  destruct (Py.contains "addr" f || Py.contains "ip" h); simpl;
    [| discriminate].
  intros _. repeat split.
Qed.

Lemma lpm_resolves_as_ip_address_witness :
  get_sai_key_type 32 "ipv4" "dst" = Ok "sai_ip_address_t"
  /\ get_sai_list_type 32 "ipv4" "dst" = Ok "sai_ip_address_list_t"
  /\ get_sai_range_list_type 32 "ipv4" "dst" = Ok "sai_ipaddr_range_list_t".
Proof.
  exact (lpm_resolves_as_ip_address 32 "ipv4" "dst" "sai_ip_prefix_t" eq_refl).
Defined.

(** X4: the hints matter only at the two special widths: away from 32 and
    48 the scalar type depends on the width alone, and away from 32 so do
    the list and range-list types. *)
Theorem resolvers_ignore_hints (w : Z) (h f h' f' : string) :
  (w <> 32 -> w <> 48 -> get_sai_key_type w h f = get_sai_key_type w h' f')
  /\ (w <> 32 -> get_sai_list_type w h f = get_sai_list_type w h' f')
  /\ (w <> 32 ->
      get_sai_range_list_type w h f = get_sai_range_list_type w h' f').
Proof.
  unfold get_sai_key_type, get_sai_list_type, get_sai_range_list_type.
  repeat split; intros;
    repeat match goal with
      | |- context [Z.eqb w ?b] => destruct (Z.eqb_spec w b); [lia |]
      end; reflexivity.
Qed.

Lemma resolvers_ignore_hints_witness :
  get_sai_key_type 24 "ipv4" "dst_addr" = get_sai_key_type 24 "meta" "x"
  /\ get_sai_list_type 48 "ethernet" "addr" = get_sai_list_type 48 "meta" "x".
Proof.
  split.
  - apply (resolvers_ignore_hints 24 "ipv4" "dst_addr" "meta" "x"); lia.
  - apply (resolvers_ignore_hints 48 "ethernet" "addr" "meta" "x"); lia.
Defined.



(** ** Splitting and joining *)

Lemma append_assoc (a b c : string) : (a +:+ b) +:+ c = a +:+ b +:+ c.
Proof.
  induction a as [|d a IH]; [reflexivity |].
  change (String d ((a +:+ b) +:+ c) = String d (a +:+ b +:+ c)).
  now f_equal.
Qed.

Lemma occurrences_app (c : ascii) (a b : string) :
  occurrences c (a +:+ b) = (occurrences c a + occurrences c b)%nat.
Proof.
  induction a as [|d a IH]; simpl; [reflexivity |]. rewrite IH. lia.
Qed.

Lemma split_length (sep : ascii) (s : string) :
  List.length (Py.split sep s) = S (occurrences sep s).
Proof.
  induction s as [|c s IH]; simpl; [reflexivity |].
  destruct (Ascii.eqb c sep); simpl.
  - now rewrite IH.
  - destruct (Py.split sep s) as [|seg segs]; simpl in *; lia.
Qed.

Lemma split_clean (sep : ascii) (s : string) :
  occurrences sep s = 0%nat -> Py.split sep s = [s].
Proof.
  induction s as [|c s IH]; simpl; [reflexivity |].
  destruct (Ascii.eqb c sep); simpl; [discriminate |].
  intros H. now rewrite (IH H).
Qed.

Lemma split_app_sep (sep : ascii) (a b : string) :
  occurrences sep a = 0%nat ->
  Py.split sep (a +:+ String sep b) = a :: Py.split sep b.
Proof.
  induction a as [|c a IH]; simpl.
  - intros _. now rewrite Ascii.eqb_refl.
  - destruct (Ascii.eqb c sep); simpl; [discriminate |].
    intros H. now rewrite (IH H).
Qed.

Lemma split_segments_clean (sep : ascii) (s : string) :
  Forall (fun seg => occurrences sep seg = 0%nat) (Py.split sep s).
Proof.
  induction s as [|c s IH]; simpl.
  - now constructor.
  - destruct (Ascii.eqb c sep) eqn:E.
    + now constructor.
    + destruct (Py.split sep s) as [|seg segs].
      * constructor; [simpl; now rewrite E | constructor].
      * inversion IH; subst. constructor; [simpl; rewrite E; lia | assumption].
Qed.

Lemma split_join (sep : ascii) (s : string) :
  Py.join sep (Py.split sep s) = s.
Proof.
  induction s as [|c s IH]; simpl; [reflexivity |].
  destruct (Ascii.eqb_spec c sep) as [->|Hne].
  - pose proof (split_nonempty sep s) as Hne.
    destruct (Py.split sep s) as [|seg segs]; [contradiction |].
    cbn [Py.join]. simpl. now rewrite <- IH.
  - destruct (Py.split sep s) as [|seg [|seg' segs]].
    + now rewrite <- IH.
    + simpl in *. now rewrite IH.
    + cbn [Py.join] in *. simpl. now rewrite <- IH.
Qed.

(** ** More on the match-field resolver *)

(** X6: the names [get_sai_key_data] can take apart are those with one
    colon and one or two dots before it. *)
Theorem name_shape_chars (n : string) :
  name_shape n
  <-> exists path declared,
        n = path +:+ ":" +:+ declared
        /\ occurrences ":" path = 0%nat
        /\ occurrences ":" declared = 0%nat
        /\ (occurrences "." path = 1%nat \/ occurrences "." path = 2%nat).
Proof.
  unfold name_shape. split.
  - intros (full & declared & hints & Hn & Hh).
    exists full, declared.
    pose proof (split_join ":" n) as Hjoin.
    pose proof (split_segments_clean ":" n) as Hclean.
    pose proof (split_length "." full) as Hlen.
    unfold unpack2 in Hn.
    destruct (Py.split ":" n) as [|a [|b [|c l]]]; try discriminate.
    injection Hn as -> ->. inversion Hclean as [|? ? Hf Hrest]; subst.
    inversion Hrest; subst.
    split; [reflexivity |]. split; [assumption |].
    split; [assumption |].
    unfold key_hints, unpack2 in Hh.
    destruct (Py.split "." full) as [|a [|b [|c [|d l]]]];
      simpl in Hlen; try discriminate; lia.
  - intros (path & declared & -> & Hp & Hd & Hdots).
    pose proof (split_length "." path) as Hlen.
    assert (Py.split ":" (path +:+ ":" +:+ declared) = [path; declared]) as Hs.
    { change (":" +:+ declared) with (String ":" declared).
      now rewrite (split_app_sep ":" path declared Hp), (split_clean ":" _ Hd). }
    destruct (Py.split "." path) as [|a [|b [|c [|d l]]]] eqn:E;
      simpl in Hlen; try lia.
    + exists path, declared, (a, b). rewrite Hs, E. split; reflexivity.
    + exists path, declared, (b, c). rewrite Hs, E. split; reflexivity.
Qed.

Lemma name_shape_chars_witness :
  name_shape "hdr.ipv4.dst:ip_addr".
Proof.
  apply (proj2 (name_shape_chars "hdr.ipv4.dst:ip_addr")).
  exists "hdr.ipv4.dst", "ip_addr". repeat split. now right.
Defined.

(** X8: the match kind is read without regard to case, and it does not
    matter which of the two tags carries it: two fields with the same name
    and width whose resolving tags agree once lowercased resolve alike. *)
Theorem get_sai_key_data_case_insensitive (key key' : match_field)
    (tag tag' : string) :
  mf_name key = mf_name key' ->
  mf_bitwidth key = mf_bitwidth key' ->
  resolved_tag key tag ->
  resolved_tag key' tag' ->
  Py.lower tag = Py.lower tag' ->
  get_sai_key_data key = get_sai_key_data key'.
Proof.
  intros Hn Hw Ht Ht' Hl. unfold get_sai_key_data.
  rewrite (key_match_type_tag _ _ Ht), (key_match_type_tag _ _ Ht').
  now rewrite Hn, Hw, Hl.
Qed.

Lemma get_sai_key_data_case_insensitive_witness :
  get_sai_key_data (MatchField "meta.port:port" 16 (Some "EXACT") None)
  = get_sai_key_data (MatchField "meta.port:port" 16 (Some "lpm") (Some "Exact")).
Proof.
  apply (get_sai_key_data_case_insensitive
           (MatchField "meta.port:port" 16 (Some "EXACT") None)
           (MatchField "meta.port:port" 16 (Some "lpm") (Some "Exact"))
           "EXACT" "Exact"); try reflexivity.
  - right. split; reflexivity.
  - left. reflexivity.
Defined.

(** X9: what a resolved key is made of.  Resolution succeeds with [k]
    exactly when the name splits into a path and the declared name of [k],
    the path gives a header and a field hint, the lowercased tag is the kind
    of [k], the type entry of [k] is the one of that kind, and it holds what
    the resolver of that entry returns for the width and the hints. *)
Theorem get_sai_key_data_resolved (key : match_field) (k : sai_key_data) :
  get_sai_key_data key = Ok k
  <-> exists full h f,
        unpack2 (Py.split ":" (mf_name key)) = Ok (full, sai_key_name k)
        /\ key_hints (Py.split "." full) = Ok (h, f)
        /\ key_match_type key = Ok (match_type k)
        /\ slot_of_kind (match_type k) = Some (key_slot k)
        /\ resolver (key_slot k) (mf_bitwidth key) h f = Ok (key_type k).
Proof.
  unfold get_sai_key_data, slot_of_kind. split.
  - destruct (unpack2 _) as [[full declared]|]; cbn [bind fst snd];
      [| discriminate].
    destruct (key_hints _) as [[h f]|] eqn:Eh; cbn [bind fst snd];
      [| discriminate].
    destruct (key_match_type key) as [kind|]; cbn [bind]; [| discriminate].
    intros H. exists full, h, f.
    destruct (String.eqb kind "exact") eqn:E1;
      [| destruct (String.eqb kind "lpm") eqn:E2;
         [| destruct (String.eqb kind "list") eqn:E3;
            [| destruct (String.eqb kind "range_list") eqn:E4;
               [| discriminate]]]];
      match type of H with
      | bind ?r _ = _ => destruct r as [ty|] eqn:Er; cbn [bind] in H;
                         [| discriminate]
      end;
      injection H as <-; cbn [sai_key_name match_type key_slot key_type];
      rewrite ?E1, ?E2, ?E3, ?E4; repeat split; try reflexivity; try exact Eh; exact Er.
  - intros (full & h & f & -> & Hh & -> & Hslot & Hres).
    cbn [bind fst snd]. rewrite Hh. cbn [bind fst snd].
    destruct k as [declared kind slot ty].
    cbn [sai_key_name match_type key_slot key_type] in *.
    destruct (String.eqb kind "exact");
      [| destruct (String.eqb kind "lpm");
         [| destruct (String.eqb kind "list");
            [| destruct (String.eqb kind "range_list"); [| discriminate]]]];
      injection Hslot as <-; cbn [resolver] in Hres; now rewrite Hres.
Qed.

Lemma get_sai_key_data_resolved_witness :
  get_sai_key_data (MatchField "hdr.ipv4.dst:ip_addr" 32 (Some "LPM") None)
  = Ok (SaiKey "ip_addr" "lpm" sai_lpm_type "sai_ip_prefix_t").
Proof.
  apply (proj2 (get_sai_key_data_resolved
                  (MatchField "hdr.ipv4.dst:ip_addr" 32 (Some "LPM") None)
                  (SaiKey "ip_addr" "lpm" sai_lpm_type "sai_ip_prefix_t"))).
  exists "hdr.ipv4.dst", "ipv4", "dst". repeat split.
Defined.

(** X10: the struct segment of a three-segment path is not used: a key
    [struct.header.field:name] resolves like [header.field:name]. *)
Theorem get_sai_key_data_struct_ignored (s h f d : string) (w : Z)
    (mt other : option string) :
  occurrences "." s = 0%nat -> occurrences "." h = 0%nat ->
  occurrences "." f = 0%nat ->
  occurrences ":" s = 0%nat -> occurrences ":" h = 0%nat ->
  occurrences ":" f = 0%nat -> occurrences ":" d = 0%nat ->
  get_sai_key_data
    (MatchField (s +:+ "." +:+ h +:+ "." +:+ f +:+ ":" +:+ d) w mt other)
  = get_sai_key_data (MatchField (h +:+ "." +:+ f +:+ ":" +:+ d) w mt other).
Proof.
  intros Hs Hh Hf Hs' Hh' Hf' Hd.
  assert (forall path, occurrences ":" path = 0%nat ->
            Py.split ":" (path +:+ ":" +:+ d) = [path; d]) as Hcolon.
  { intros path Hp. change (":" +:+ d) with (String ":" d).
    now rewrite (split_app_sep ":" path d Hp), (split_clean ":" _ Hd). }
  assert (Py.split "." (h +:+ "." +:+ f) = [h; f]) as H2.
  { change ("." +:+ f) with (String "." f).
    now rewrite (split_app_sep "." h f Hh), (split_clean "." _ Hf). }
  assert (Py.split "." (s +:+ "." +:+ h +:+ "." +:+ f) = [s; h; f]) as H3.
  { change ("." +:+ h +:+ "." +:+ f) with (String "." (h +:+ "." +:+ f)).
    now rewrite (split_app_sep "." s _ Hs), H2. }
  assert (s +:+ "." +:+ h +:+ "." +:+ f +:+ ":" +:+ d
          = (s +:+ "." +:+ h +:+ "." +:+ f) +:+ ":" +:+ d) as ->.
  { now rewrite !append_assoc. }
  assert (h +:+ "." +:+ f +:+ ":" +:+ d
          = (h +:+ "." +:+ f) +:+ ":" +:+ d) as ->.
  { now rewrite !append_assoc. }
  unfold get_sai_key_data. cbn [mf_name mf_bitwidth].
  rewrite !Hcolon.
  - cbn [unpack2 bind fst snd]. rewrite H2, H3. reflexivity.
  - rewrite !occurrences_app. simpl. lia.
  - rewrite !occurrences_app. simpl. lia.
Qed.

Lemma get_sai_key_data_struct_ignored_witness :
  get_sai_key_data (MatchField "hdr.ipv4.dst:ip_addr" 32 (Some "lpm") None)
  = get_sai_key_data (MatchField "ipv4.dst:ip_addr" 32 (Some "lpm") None).
Proof.
  apply (get_sai_key_data_struct_ignored "hdr" "ipv4" "dst" "ip_addr" 32
           (Some "lpm") None); reflexivity.
Defined.

(** ** The action model *)

Lemma get_sai_key_type_fails (w : Z) (h f : string) :
  (w <= 64 -> exists ty, get_sai_key_type w h f = Ok ty)
  /\ (64 < w -> get_sai_key_type w h f = Raise UnsupportedWidth).
Proof.
  unfold get_sai_key_type. split; intros Hw;
    repeat match goal with
      | |- context [if ?b then _ else _] => destruct b eqn:?
      end; try (eexists; reflexivity); try reflexivity; lia.
Qed.

Lemma params_loop (ps : list param) (acc out : list sai_param) :
  for_each extract_param ps acc = Ok out ->
  exists sps, out = (acc ++ sps)%list /\ Forall2 typed_param ps sps.
Proof.
  revert acc. induction ps as [|p ps IH]; intros acc; simpl.
  - intros [= <-]. exists []. split; [now rewrite app_nil_r | constructor].
  - unfold extract_param at 1.
    destruct (get_sai_key_type _ _ _) as [ty|] eqn:E; cbn [bind];
      [| discriminate].
    intros H. destruct (IH _ H) as (sps & -> & Hsps).
    exists (SaiParam (p_id p) (p_name p) ty :: sps).
    split; [now rewrite <- app_assoc |].
    constructor; [| exact Hsps]. now repeat split.
Qed.

Lemma params_loop_total (ps : list param) (acc : list sai_param) :
  (Forall (fun p => p_bitwidth p <= 64) ps ->
   exists out, for_each extract_param ps acc = Ok out)
  /\ (Exists (fun p => 64 < p_bitwidth p) ps ->
      for_each extract_param ps acc = Raise UnsupportedWidth).
Proof.
  revert acc. induction ps as [|p ps IH]; intros acc; simpl.
  - split; [intros _; now eexists | intros H; inversion H].
  - unfold extract_param at 1 3.
    destruct (get_sai_key_type_fails (p_bitwidth p) (p_name p) (p_name p))
      as [Hok Hfail].
    destruct (Z_le_gt_dec (p_bitwidth p) 64) as [Hle|Hgt].
    + destruct (Hok Hle) as [ty ->]. cbn [bind]. split.
      * intros H. inversion H; subst. now apply IH.
      * intros H. inversion H; subst; [lia | now apply IH].
    + rewrite Hfail by lia. cbn [bind]. split; [| reflexivity].
      intros H. inversion H; subst. lia.
Qed.

Lemma extract_action_ok (m m1 : gmap Z sai_action) (a : action) :
  extract_action m a = Ok m1 ->
  exists params,
    m1 = <[a_id a := descriptor_of a params]> m
    /\ Forall2 typed_param (declared_params a) params.
Proof.
  unfold extract_action, declared_params, descriptor_of.
  destruct (a_params a) as [ps|].
  - destruct (for_each extract_param ps []) as [params|] eqn:E; cbn [bind];
      [| discriminate].
    intros [= <-]. exists params. split; [reflexivity |].
    destruct (params_loop _ _ _ E) as (sps & -> & Hsps). exact Hsps.
  - cbn [bind]. intros [= <-]. exists []. split; [reflexivity | constructor].
Qed.

Lemma actions_model_loop (acts : list action) (m m' : gmap Z sai_action) :
  for_each extract_action acts m = Ok m' ->
  (forall id, Forall (fun a => a_id a <> id) acts -> m' !! id = m !! id)
  /\ (forall pre act post,
        acts = (pre ++ act :: post)%list ->
        Forall (fun a => a_id a <> a_id act) post ->
        exists params,
          m' !! a_id act = Some (descriptor_of act params)
          /\ Forall2 typed_param (declared_params act) params).
Proof.
  revert m. induction acts as [|a acts IH]; intros m; simpl.
  - intros [= <-]. split; [reflexivity |].
    intros [|? ?] act post H; discriminate H.
  - destruct (extract_action m a) as [m1|] eqn:E; cbn [bind]; [| discriminate].
    intros H. destruct (IH _ H) as [IH1 IH2].
    destruct (extract_action_ok _ _ _ E) as (params & -> & Hparams). split.
    + intros id Hid. inversion Hid; subst.
      rewrite IH1 by assumption. now rewrite lookup_insert_ne.
    + intros [|b pre] act post Heq Hpost.
      * injection Heq as <- <-. exists params.
        rewrite IH1 by exact Hpost. now rewrite lookup_insert_eq.
      * injection Heq as <- ->. now apply (IH2 pre act post).
Qed.

(** Either no action has the id, or there is a last one that has it. *)
Lemma last_with_id (id : Z) (l : list action) :
  Forall (fun a => a_id a <> id) l
  \/ exists pre act post,
       l = (pre ++ act :: post)%list
       /\ a_id act = id
       /\ Forall (fun b => a_id b <> a_id act) post.
Proof.
  induction l as [|b l [IH | (pre & act & post & -> & Hid & Hpost)]].
  - left. constructor.
  - destruct (Z.eq_dec (a_id b) id) as [Heq|Hne].
    + right. exists [], b, l. repeat split; [exact Heq |]. now rewrite Heq.
    + left. now constructor.
  - right. now exists (b :: pre), act, post.
Qed.

(** X11: the action model is keyed by id and the last action of the
    document with an id is the one filed under it: its descriptor carries
    the id, the last dotted segment of the name, and the parameters in order,
    each typed as a scalar with its name as both hints (none when [params] is
    absent).  Ids no action has are absent from the model. *)
Theorem extract_action_data_lookup (prog : program)
    (all_actions : gmap Z sai_action) :
  extract_action_data prog = Ok all_actions ->
  (forall id, all_actions !! id = None
              <-> Forall (fun a => a_id a <> id) (p_actions prog))
  /\ (forall pre act post,
        p_actions prog = (pre ++ act :: post)%list ->
        Forall (fun a => a_id a <> a_id act) post ->
        exists params,
          all_actions !! a_id act = Some (descriptor_of act params)
          /\ Forall2 typed_param (declared_params act) params).
Proof.
  unfold extract_action_data. intros H.
  destruct (actions_model_loop _ _ _ H) as [H1 H2]. split; [| exact H2].
  intros id. split.
  - intros Hnone.
    destruct (last_with_id id (p_actions prog))
      as [Hall | (pre & act & post & Hsplit & Hid & Hpost)]; [exact Hall |].
    destruct (H2 pre act post Hsplit Hpost) as (params & Hl & _).
    rewrite Hid in Hl. congruence.
  - intros Hall. rewrite (H1 id Hall). apply lookup_empty.
Qed.

Lemma extract_action_data_lookup_witness :
  exists all_actions params,
    extract_action_data
      (Program [] [Action 7 "ingress.old" None;
                   Action 7 "ingress.set_port" (Some [Param 1 "port" 16])])
    = Ok all_actions
    /\ all_actions !! 7 = Some (SaiAction 7 "set_port" params)
    /\ all_actions !! 8 = None.
Proof.
  destruct (extract_action_data
              (Program [] [Action 7 "ingress.old" None;
                           Action 7 "ingress.set_port"
                             (Some [Param 1 "port" 16])]))
    as [all_actions|] eqn:E; [| vm_compute in E; discriminate E].
  destruct (extract_action_data_lookup _ _ E) as [Hnone Hlast].
  destruct (Hlast [Action 7 "ingress.old" None]
              (Action 7 "ingress.set_port" (Some [Param 1 "port" 16])) []
              eq_refl (List.Forall_nil _)) as (params & Hl & _).
  exists all_actions, params. split; [reflexivity | split; [exact Hl |]].
  apply Hnone. repeat constructor; discriminate.
Defined.

Lemma widths_dichotomy (ps : list param) :
  Forall (fun p => p_bitwidth p <= 64) ps
  \/ Exists (fun p => 64 < p_bitwidth p) ps.
Proof.
  induction ps as [|p ps [IH|IH]].
  - left. constructor.
  - destruct (Z_le_gt_dec (p_bitwidth p) 64) as [Hle|Hgt].
    + left. now constructor.
    + right. apply Exists_cons_hd. lia.
  - right. now apply Exists_cons_tl.
Qed.

Lemma actions_dichotomy (acts : list action) :
  Forall (fun a => Forall (fun p => p_bitwidth p <= 64) (declared_params a)) acts
  \/ Exists (fun a => Exists (fun p => 64 < p_bitwidth p) (declared_params a))
       acts.
Proof.
  induction acts as [|a acts [IH|IH]].
  - left. constructor.
  - destruct (widths_dichotomy (declared_params a)) as [Hle|Hgt].
    + left. now constructor.
    + right. now apply Exists_cons_hd.
  - right. now apply Exists_cons_tl.
Qed.

Lemma extract_action_total (m : gmap Z sai_action) (a : action) :
  (Forall (fun p => p_bitwidth p <= 64) (declared_params a) ->
   exists m1, extract_action m a = Ok m1)
  /\ (Exists (fun p => 64 < p_bitwidth p) (declared_params a) ->
      extract_action m a = Raise UnsupportedWidth).
Proof.
  unfold extract_action, declared_params. destruct (a_params a) as [ps|].
  - destruct (params_loop_total ps []) as [Hok Hfail]. split.
    + intros H. destruct (Hok H) as [out ->]. cbn [bind]. now eexists.
    + intros H. now rewrite (Hfail H).
  - cbn [bind]. split; [intros _; now eexists | intros H; inversion H].
Qed.

Lemma actions_model_total (acts : list action) (m : gmap Z sai_action) :
  (Forall (fun a => Forall (fun p => p_bitwidth p <= 64) (declared_params a))
     acts ->
   exists m', for_each extract_action acts m = Ok m')
  /\ (Exists (fun a => Exists (fun p => 64 < p_bitwidth p) (declared_params a))
        acts ->
      for_each extract_action acts m = Raise UnsupportedWidth).
Proof.
  revert m. induction acts as [|a acts IH]; intros m; simpl.
  - split; [intros _; now eexists | intros H; inversion H].
  - destruct (extract_action_total m a) as [Hok Hfail].
    destruct (widths_dichotomy (declared_params a)) as [Hle|Hgt].
    + destruct (Hok Hle) as [m1 ->]. cbn [bind]. split.
      * intros H. inversion H; subst. now apply IH.
      * intros H. inversion H as [? ? Hhd|? ? Htl]; subst; [| now apply IH].
        exfalso. clear -Hle Hhd.
        induction Hhd as [p ps Hp|p ps _ IHp]; inversion Hle; subst;
          [lia | now apply IHp].
    + rewrite (Hfail Hgt). cbn [bind]. split; [| reflexivity].
      intros H. inversion H as [|? ? Hhd _]; subst. exfalso. clear -Hhd Hgt.
      induction Hgt as [p ps Hp|p ps _ IHp]; inversion Hhd; subst;
        [lia | now apply IHp].
Qed.

(** X12: building the action model fails exactly when some action declares
    a parameter wider than 64 bits, and [UnsupportedWidth] is the only way
    it fails: ids, names and the order of the actions play no part. *)
Theorem extract_action_data_errors (prog : program) :
  (extract_action_data prog = Raise UnsupportedWidth
   <-> Exists (fun a => Exists (fun p => 64 < p_bitwidth p) (declared_params a))
         (p_actions prog))
  /\ (forall e, extract_action_data prog = Raise e -> e = UnsupportedWidth).
Proof.
  unfold extract_action_data.
  destruct (actions_model_total (p_actions prog) ∅) as [Hok Hfail].
  destruct (actions_dichotomy (p_actions prog)) as [Hle|Hgt].
  - destruct (Hok Hle) as [m' Hm']. rewrite Hm'. split.
    + split; [discriminate |]. intros H. rewrite (Hfail H) in Hm'.
      discriminate Hm'.
    + discriminate.
  - rewrite (Hfail Hgt). split; [tauto |]. now intros e [= <-].
Qed.

Lemma extract_action_data_errors_witness :
  extract_action_data
    (Program [] [Action 1 "NoAction" None;
                 Action 2 "ingress.set_key" (Some [Param 1 "key" 128])])
  = Raise UnsupportedWidth.
Proof.
  apply (proj1 (extract_action_data_errors
                  (Program [] [Action 1 "NoAction" None;
                               Action 2 "ingress.set_key"
                                 (Some [Param 1 "key" 128])]))).
  apply Exists_cons_tl, Exists_cons_hd, Exists_cons_hd. simpl. lia.
Defined.

(** ** More on the table pass *)

Lemma for_each_app {A S : Type} (body : S -> A -> result S)
    (l1 l2 : list A) (s : S) :
  for_each body (l1 ++ l2)%list s
  = bind (for_each body l1 s) (for_each body l2).
Proof.
  revert s. induction l1 as [|x l1 IH]; intros s; simpl; [reflexivity |].
  destruct (body s x) as [s'|e]; simpl; [apply IH | reflexivity].
Qed.

Lemma keys_loop_ok (mfs : list match_field) (acc ks : list sai_key_data) :
  Forall2 (fun mf k => get_sai_key_data mf = Ok k) mfs ks ->
  for_each append_key mfs acc = Ok (acc ++ ks)%list.
Proof.
  intros H. revert acc. induction H as [|mf k mfs ks Hk _ IH]; intros acc;
    simpl.
  - now rewrite app_nil_r.
  - unfold append_key at 1. rewrite Hk. cbn [bind]. rewrite IH.
    now rewrite <- app_assoc.
Qed.

Lemma get_sai_key_data_no_lookup_error (key : match_field) :
  get_sai_key_data key <> Raise MissingActionReference.
Proof.
  unfold get_sai_key_data.
  destruct (Py.split ":" (mf_name key)) as [|a [|b [|c l]]];
    cbn [unpack2 bind fst snd]; try discriminate.
  destruct (Py.split "." a) as [|a1 [|a2 [|a3 [|a4 l]]]];
    cbn [key_hints unpack2 bind fst snd]; try discriminate;
    (destruct (key_match_type key) as [kind|e] eqn:Ek; cbn [bind];
     [| unfold key_match_type in Ek;
        destruct (mf_otherMatchType key), (mf_matchType key); congruence]);
    repeat match goal with
      | |- context [if ?b then _ else _] => destruct b
      end; try discriminate;
    match goal with
    | |- bind ?r _ <> _ => destruct r as [ty|e] eqn:Er; cbn [bind];
                           [discriminate |]
    end;
    first [ apply get_sai_key_type_raises in Er
          | apply get_sai_lpm_type_raises in Er
          | apply get_sai_list_type_raises in Er
          | apply get_sai_range_list_type_raises in Er ];
    subst; discriminate.
Qed.

Lemma keys_loop_no_lookup_error (mfs : list match_field)
    (acc : list sai_key_data) :
  for_each append_key mfs acc <> Raise MissingActionReference.
Proof.
  revert acc. induction mfs as [|mf mfs IH]; intros acc; simpl;
    [discriminate |].
  unfold append_key at 1.
  destruct (get_sai_key_data mf) as [k|e] eqn:E; cbn [bind]; [apply IH |].
  intros [= ->]. now apply (get_sai_key_data_no_lookup_error mf).
Qed.

Lemma actions_loop_total (all_actions : gmap Z sai_action) (refs : list Z)
    (acc : list sai_action) :
  (Forall (fun id => is_Some (all_actions !! id)) refs ->
   exists acts, for_each (append_action all_actions) refs acc = Ok acts)
  /\ (Exists (fun id => all_actions !! id = None) refs ->
      for_each (append_action all_actions) refs acc
      = Raise MissingActionReference).
Proof.
  revert acc. induction refs as [|id refs IH]; intros acc; simpl.
  - split; [intros _; now eexists | intros H; inversion H].
  - unfold append_action at 1 3, lookup_action.
    destruct (all_actions !! id) as [a|] eqn:E; cbn [bind].
    + assert (exists acc', (if negb (String.eqb (sa_name a) NOACTION)
                            then Ok (acc ++ [a])%list else Ok acc)
                           = Ok acc') as [acc' ->].
      { destruct (negb _); now eexists. }
      cbn [bind]. split.
      * intros H. inversion H; subst. now apply IH.
      * intros H. inversion H; subst; [congruence | now apply IH].
    + split; [| reflexivity]. intros H. inversion H as [|? ? [a Ha] _]; subst.
      congruence.
Qed.

Lemma refs_dichotomy (all_actions : gmap Z sai_action) (refs : list Z) :
  Forall (fun id => is_Some (all_actions !! id)) refs
  \/ Exists (fun id => all_actions !! id = None) refs.
Proof.
  induction refs as [|id refs [IH|IH]].
  - left. constructor.
  - destruct (all_actions !! id) as [a|] eqn:E.
    + left. constructor; [rewrite E; now eexists | exact IH].
    + right. now apply Exists_cons_hd.
  - right. now apply Exists_cons_tl.
Qed.

(** X13: what an emitted descriptor keeps.  Unless the table has the
    single intrinsic id key, its keys are the resolved match fields, one per
    field and in order; and an object descriptor is filed under the derived
    name itself, without suffix. *)
Theorem sai_table_keys_and_name all_actions ignore_tables t d :
  sai_table all_actions ignore_tables t = Ok (Some d) ->
  (~ intrinsic_id t ->
   Forall2 (fun mf k => get_sai_key_data mf = Ok k) (t_matchFields t) (keys d))
  /\ (is_object d = "true" -> derived_name t = Ok (name d)).
Proof.
  intros H.
  destruct (sai_table_emitted _ _ _ _ H)
    as (control & table_name & ks & acts & Hn & _ & Hks & _ & ->).
  pose proof (intrinsic_id_keys t control table_name ks Hn Hks) as Hintr.
  unfold derived_name. rewrite Hn. cbn [bind snd]. unfold classify.
  destruct ks as [|k [|k' ks]]; cbn [List.length Nat.eqb andb lookup list_lookup].
  - simpl. split; [intros _; exact Hks | discriminate].
  - simpl. destruct (String.eqb_spec (sai_key_name k)
               (Py.last_item (Py.split "." table_name) +:+ "_id")) as [He|Hne];
      simpl.
    + split; [| reflexivity]. intros Hnot. exfalso. apply Hnot, Hintr.
      now exists k.
    + split; [intros _; exact Hks | discriminate].
  - cbn [andb].
    match goal with |- context [if ?b then _ else _] => destruct b end; simpl.
    + split; [intros _; exact Hks | reflexivity].
    + split; [intros _; exact Hks | discriminate].
Qed.

Lemma sai_table_keys_and_name_witness :
  derived_name six_keys_table = Ok "acl_stage1"
  /\ Forall2 (fun mf k => get_sai_key_data mf = Ok k)
       (t_matchFields my_table)
       [SaiKey "ip_addr" "lpm" sai_lpm_type "sai_ip_prefix_t"].
Proof.
  split.
  - apply (sai_table_keys_and_name ∅ [] six_keys_table _ eq_refl).
    reflexivity.
  - apply (sai_table_keys_and_name ∅ [] my_table _ eq_refl).
    intros (mf & b & Hmf & Hb & Hd). injection Hmf as <-.
    vm_compute in Hb. injection Hb as <-. vm_compute in Hd. discriminate Hd.
Defined.

Lemma unpack2_raises {A} (l : list A) (e : error) :
  unpack2 l = Raise e -> e = UnpackError.
Proof. destruct l as [|a [|b [|c l]]]; simpl; congruence. Qed.

(** X14: a reference to an id that is not in the action model is fatal,
    also when the action would have been dropped as [NoAction]: the pass over
    a table raises [MissingActionReference] exactly when the table is not
    excluded, all its match fields resolve, and some action reference has no
    descriptor. *)
Theorem sai_table_missing_action all_actions ignore_tables t :
  sai_table all_actions ignore_tables t = Raise MissingActionReference
  <-> (exists n, derived_name t = Ok n /\ ~ In n ignore_tables)
      /\ (exists ks, Forall2 (fun mf k => get_sai_key_data mf = Ok k)
                       (t_matchFields t) ks)
      /\ Exists (fun id => all_actions !! id = None) (t_actionRefs t).
Proof.
  unfold sai_table, derived_name.
  destruct (unpack2 (Py.split1 "." (t_name t))) as [[control table_name]|e]
    eqn:En; cbn [bind snd].
  - destruct (Py.mem _ ignore_tables) eqn:Hmem.
    + split; [discriminate |].
      intros ((n & [= <-] & Hn) & _). exfalso. apply Hn.
      now apply mem_In.
    + assert (~ In (Py.replace "." "_" table_name) ignore_tables) as Hni.
      { intros Hin. apply mem_In in Hin. congruence. }
      destruct (for_each append_key (t_matchFields t) []) as [ks|e] eqn:Ek;
        cbn [bind].
      * destruct (keys_loop _ _ _ Ek) as (ks' & -> & Hks').
        destruct (actions_loop_total all_actions (t_actionRefs t) [])
          as [Hok Hfail].
        destruct (refs_dichotomy all_actions (t_actionRefs t)) as [Hall|Hex].
        -- destruct (Hok Hall) as [acts Hacts]. rewrite Hacts. cbn [bind].
           split; [discriminate |]. intros (_ & _ & Hex).
           rewrite (Hfail Hex) in Hacts. discriminate Hacts.
        -- rewrite (Hfail Hex). cbn [bind]. split; [| reflexivity].
           intros _. split; [now eexists |]. split; [now exists ks' | exact Hex].
      * split.
        -- intros [= ->]. now apply keys_loop_no_lookup_error in Ek.
        -- intros (_ & (ks & Hks) & _).
           rewrite (keys_loop_ok _ [] ks Hks) in Ek. discriminate Ek.
  - apply unpack2_raises in En. subst e. split; [discriminate |].
    intros ((n & Hn & _) & _). discriminate Hn.
Qed.

Lemma sai_table_missing_action_witness :
  sai_table ∅ [] (Table "ingress.port"
                    [MatchField "hdr.port.port_id:port_id" 16 (Some "exact") None]
                    [1])
  = Raise MissingActionReference.
Proof.
  apply (proj2 (sai_table_missing_action ∅ []
                  (Table "ingress.port"
                     [MatchField "hdr.port.port_id:port_id" 16
                        (Some "exact") None] [1]))).
  split; [exists "port"; split; [reflexivity | intros []] |].
  split; [eexists; repeat constructor |].
  apply Exists_cons_hd. reflexivity.
Defined.

(** X15: an excluded table is not looked at: taking it out of the document
    changes nothing, whether the run succeeds or fails, whatever its match
    fields and action references are. *)
Theorem generate_sai_api_drop_excluded (pre post : list table) (t : table)
    (acts : list action) (ignore_tables : list string) :
  excluded ignore_tables t = true ->
  generate_sai_api (Program (pre ++ t :: post) acts) ignore_tables
  = generate_sai_api (Program (pre ++ post) acts) ignore_tables.
Proof.
  intros Hex. unfold generate_sai_api, extract_action_data.
  cbn [p_tables p_actions].
  destruct (for_each extract_action acts ∅) as [all_actions|]; cbn [bind];
    [| reflexivity].
  rewrite !for_each_app.
  destruct (for_each _ pre []) as [acc|]; cbn [bind]; [| reflexivity].
  cbn [for_each]. unfold append_table at 1, sai_table.
  unfold excluded, derived_name in Hex.
  destruct (unpack2 _) as [names|]; cbn [bind] in *; [| discriminate].
  now rewrite Hex.
Qed.

Lemma generate_sai_api_drop_excluded_witness :
  generate_sai_api
    (Program [my_table; Table "ingress.port" [MatchField "bad" 99 None None] [404];
              six_keys_table] sample_actions) ["port"]
  = generate_sai_api (Program [my_table; six_keys_table] sample_actions) ["port"].
Proof.
  apply (generate_sai_api_drop_excluded [my_table] [six_keys_table]
           (Table "ingress.port" [MatchField "bad" 99 None None] [404])
           sample_actions ["port"]).
  reflexivity.
Defined.

(** X16: the run stops at the first table whose pass fails, with that
    failure; the tables after it are not looked at. *)
Theorem generate_sai_api_first_failure (prog : program)
    (ignore_tables : list string) (all_actions : gmap Z sai_action)
    (pre post : list table) (t : table) (e : error) :
  extract_action_data prog = Ok all_actions ->
  p_tables prog = (pre ++ t :: post)%list ->
  Forall (fun t' => exists r, sai_table all_actions ignore_tables t' = Ok r)
    pre ->
  sai_table all_actions ignore_tables t = Raise e ->
  generate_sai_api prog ignore_tables = Raise e.
Proof.
  intros Ha Hsplit Hpre Ht. unfold generate_sai_api.
  rewrite Ha, Hsplit. cbn [bind]. rewrite for_each_app.
  assert (exists acc,
             for_each (append_table all_actions ignore_tables) pre [] = Ok acc)
    as [acc ->].
  { clear Hsplit. generalize (@nil sai_table_data).
    induction Hpre as [|t' pre' [r Hr] _ IH]; intros acc; simpl;
      [now eexists |].
    unfold append_table at 1. rewrite Hr. cbn [bind].
    destruct r as [d|]; apply IH. }
  cbn [bind for_each]. unfold append_table at 1. now rewrite Ht.
Qed.

Lemma generate_sai_api_first_failure_witness :
  generate_sai_api
    (Program [my_table;
              Table "ingress.acl" [MatchField "meta.x:x" 8 (Some "TERNARY") None] [];
              Table "nodot" [] []] []) []
  = Raise UnsupportedMatchKind.
Proof.
  apply (generate_sai_api_first_failure
           (Program [my_table;
                     Table "ingress.acl"
                       [MatchField "meta.x:x" 8 (Some "TERNARY") None] [];
                     Table "nodot" [] []] []) [] ∅
           [my_table] [Table "nodot" [] []]
           (Table "ingress.acl" [MatchField "meta.x:x" 8 (Some "TERNARY") None] []));
    try reflexivity.
  repeat constructor. eexists. reflexivity.
Defined.

(** ** Table names *)

Lemma split1_clean (sep : ascii) (s : string) :
  occurrences sep s = 0%nat -> Py.split1 sep s = [s].
Proof.
  induction s as [|c s IH]; simpl; [reflexivity |].
  destruct (Ascii.eqb c sep); simpl; [discriminate |].
  intros H. now rewrite (IH H).
Qed.

Lemma split1_app_sep (sep : ascii) (a b : string) :
  occurrences sep a = 0%nat -> Py.split1 sep (a +:+ String sep b) = [a; b].
Proof.
  induction a as [|c a IH]; simpl.
  - intros _. now rewrite Ascii.eqb_refl.
  - destruct (Ascii.eqb c sep); simpl; [discriminate |].
    intros H. now rewrite (IH H).
Qed.

Lemma replace_dots_clean (s : string) :
  occurrences "." (Py.replace "." "_" s) = 0%nat.
Proof.
  induction s as [|c s IH]; simpl; [reflexivity |].
  destruct (Ascii.eqb_spec c ".") as [->|Hne]; simpl; [exact IH |].
  destruct (Ascii.eqb_spec c ".") as [->|_]; [contradiction | exact IH].
Qed.

(** X17: only the text before the first dot of a table's name is dropped
    as the control block, and every later dot becomes an underscore; a name
    without a dot cannot be taken apart, and the pass over such a table
    raises [UnpackError] even when the exclusion list would cover it. *)
Theorem derived_name_first_dot (t : table) :
  (occurrences "." (t_name t) = 0%nat ->
   derived_name t = Raise UnpackError
   /\ forall all_actions ignore_tables,
        sai_table all_actions ignore_tables t = Raise UnpackError)
  /\ (forall control rest,
        occurrences "." control = 0%nat ->
        t_name t = control +:+ "." +:+ rest ->
        derived_name t = Ok (Py.replace "." "_" rest)).
Proof.
  unfold derived_name, sai_table. split.
  - intros H. rewrite (split1_clean "." _ H). split; reflexivity.
  - intros control rest Hc ->.
    change ("." +:+ rest) with (String "." rest).
    now rewrite (split1_app_sep "." control rest Hc).
Qed.

Lemma derived_name_first_dot_witness :
  derived_name (Table "ingress.acl.stage1" [] []) = Ok "acl_stage1"
  /\ sai_table ∅ ["nodot"; ""] (Table "nodot" [] []) = Raise UnpackError.
Proof.
  split.
  - apply (proj2 (derived_name_first_dot (Table "ingress.acl.stage1" [] []))
             "ingress" "acl.stage1"); reflexivity.
  - apply (proj1 (derived_name_first_dot (Table "nodot" [] []))). reflexivity.
Defined.

(** X18: no descriptor of the final model has a dot in its name. *)
Theorem generate_sai_api_names_dotless prog ignore_tables api :
  generate_sai_api prog ignore_tables = Ok api ->
  Forall (fun d => occurrences "." (name d) = 0%nat) (tables api).
Proof.
  intros H. destruct (generate_sai_api_kept _ _ _ H) as (all_actions & _ & Hk).
  induction Hk as [|t d ts ds Ht _ IH]; constructor; [| exact IH].
  destruct (sai_table_emitted _ _ _ _ Ht)
    as (control & table_name & ks & acts & _ & _ & _ & _ & ->).
  destruct (classify_name table_name (Py.replace "." "_" table_name) ks acts)
    as [-> | ->].
  - apply replace_dots_clean.
  - rewrite occurrences_app, replace_dots_clean. reflexivity.
Qed.

Lemma generate_sai_api_names_dotless_witness :
  Forall (fun d => occurrences "." (name d) = 0%nat) (tables sample_api).
Proof.
  exact (generate_sai_api_names_dotless sample_program ["port"] sample_api
           eq_refl).
Defined.

(** ** Header patches *)

(** A loop whose passes only append to the accumulator is the
    concatenation of what each pass appends. *)
Lemma fold_left_appends {A B : Type} (f : list B -> A -> list B) :
  (forall acc x, f acc x = (acc ++ f [] x)%list) ->
  forall l acc, fold_left f l acc = (acc ++ flat_map (f []) l)%list.
Proof.
  intros Hf. induction l as [|x l IH]; intros acc; simpl.
  - now rewrite app_nil_r.
  - rewrite IH, (Hf acc x). now rewrite <- app_assoc.
Qed.

Lemma object_type_line_appends (acc : list string) (t : sai_table_data) :
  object_type_line acc t = (acc ++ object_type_line [] t)%list.
Proof. reflexivity. Qed.

Lemma object_member_lines_appends (acc : list string) (t : sai_table_data) :
  object_member_lines acc t = (acc ++ object_member_lines [] t)%list.
Proof.
  unfold object_member_lines. destruct (String.eqb (is_object t) "false").
  - now rewrite <- app_assoc.
  - now rewrite app_nil_r.
Qed.

Lemma saiextensions_line_appends (app_name : string) (acc : list string)
    (line : string) :
  saiextensions_line app_name acc line
  = (acc ++ saiextensions_line app_name [] line)%list.
Proof.
  unfold saiextensions_line.
  destruct (Py.contains API_MARK line), (Py.contains INCLUDE_MARK line);
    cbn [app]; now rewrite <- ?app_assoc.
Qed.

Lemma saitypesextensions_line_appends (sai_tables : list sai_table_data)
    (acc : list string) (line : string) :
  saitypesextensions_line sai_tables acc line
  = (acc ++ saitypesextensions_line sai_tables [] line)%list.
Proof.
  unfold saitypesextensions_line.
  destruct (Py.contains OBJECT_TYPE_MARK line); [| reflexivity].
  rewrite !(fold_left_appends _ object_type_line_appends).
  cbn [app]. now rewrite <- app_assoc.
Qed.

Lemma saiobject_line_appends (app_name : string)
    (sai_tables : list sai_table_data) (acc : list string) (line : string) :
  saiobject_line app_name sai_tables acc line
  = (acc ++ saiobject_line app_name sai_tables [] line)%list.
Proof.
  unfold saiobject_line.
  destruct (Py.contains ENTRY_MARK line), (Py.contains INCLUDE_MARK line);
    rewrite ?(fold_left_appends _ object_member_lines_appends);
    cbn [app]; now rewrite <- ?app_assoc.
Qed.

Lemma saiextensions_flat (app_name : string) (lines : list string) :
  saiextensions_lines app_name lines
  = flat_map (saiextensions_line app_name []) lines.
Proof.
  unfold saiextensions_lines.
  now rewrite (fold_left_appends _ (saiextensions_line_appends app_name)).
Qed.

Lemma saitypesextensions_flat (sai_tables : list sai_table_data)
    (lines : list string) :
  saitypesextensions_lines sai_tables lines
  = flat_map (saitypesextensions_line sai_tables []) lines.
Proof.
  unfold saitypesextensions_lines.
  now rewrite (fold_left_appends _ (saitypesextensions_line_appends sai_tables)).
Qed.

Lemma saiobject_flat (app_name : string) (sai_tables : list sai_table_data)
    (lines : list string) :
  saiobject_lines app_name sai_tables lines
  = flat_map (saiobject_line app_name sai_tables []) lines.
Proof.
  unfold saiobject_lines.
  now rewrite (fold_left_appends _ (saiobject_line_appends app_name sai_tables)).
Qed.


Lemma object_member_lines_entries (sai_tables : list sai_table_data) :
  fold_left object_member_lines sai_tables []
  = fold_left object_member_lines (entry_tables sai_tables) [].
Proof.
  rewrite !(fold_left_appends _ object_member_lines_appends). cbn [app].
  unfold entry_tables.
  induction sai_tables as [|t ts IH]; simpl; [reflexivity |].
  destruct (String.eqb (is_object t) "false") eqn:E; simpl.
  - now rewrite IH.
  - unfold object_member_lines at 1. now rewrite E.
Qed.


(** X19: each patch works line by line: patching a file is patching its
    parts and putting the results one after the other. *)
Theorem patches_distribute (app_name : string)
    (sai_tables : list sai_table_data) (lines1 lines2 : list string) :
  saiextensions_lines app_name (lines1 ++ lines2)
  = (saiextensions_lines app_name lines1
     ++ saiextensions_lines app_name lines2)%list
  /\ saitypesextensions_lines sai_tables (lines1 ++ lines2)
     = (saitypesextensions_lines sai_tables lines1
        ++ saitypesextensions_lines sai_tables lines2)%list
  /\ saiobject_lines app_name sai_tables (lines1 ++ lines2)
     = (saiobject_lines app_name sai_tables lines1
        ++ saiobject_lines app_name sai_tables lines2)%list.
Proof.
  rewrite !saiextensions_flat, !saitypesextensions_flat, !saiobject_flat.
  rewrite !flat_map_app. repeat split.
Qed.

(** X20: a file without marker lines is left as it is by each patch. *)
Theorem patches_unmarked (app_name : string)
    (sai_tables : list sai_table_data) (lines : list string) :
  (marked API_MARK lines = 0%nat -> marked INCLUDE_MARK lines = 0%nat ->
   saiextensions_lines app_name lines = lines)
  /\ (marked OBJECT_TYPE_MARK lines = 0%nat ->
      saitypesextensions_lines sai_tables lines = lines)
  /\ (marked ENTRY_MARK lines = 0%nat -> marked INCLUDE_MARK lines = 0%nat ->
      saiobject_lines app_name sai_tables lines = lines).
Proof.
  rewrite saiextensions_flat, saitypesextensions_flat, saiobject_flat.
  unfold marked. repeat split;
    induction lines as [|line lines IH]; simpl; try reflexivity;
    unfold saiextensions_line, saitypesextensions_line, saiobject_line;
    repeat match goal with
      | |- context [Py.contains ?m line] => destruct (Py.contains m line)
      end; simpl; intros; try discriminate; f_equal; auto.
Qed.

Lemma patches_unmarked_witness :
  saiobject_lines "dash" (tables sample_api) ["typedef union {"; "} x;"]
  = ["typedef union {"; "} x;"].
Proof.
  apply (patches_unmarked "dash" (tables sample_api)
           ["typedef union {"; "} x;"]); reflexivity.
Defined.


(** X22: no patch drops or reorders a line: the lines read from the file
    are still there, in order, among the new lines. *)
Theorem patches_keep_lines (app_name : string)
    (sai_tables : list sai_table_data) (lines : list string) :
  sublist lines (saiextensions_lines app_name lines)
  /\ sublist lines (saitypesextensions_lines sai_tables lines)
  /\ sublist lines (saiobject_lines app_name sai_tables lines).
Proof.
  rewrite saiextensions_flat, saitypesextensions_flat, saiobject_flat.
  repeat split; induction lines as [|line lines IH]; simpl;
    try constructor;
    apply (sublist_app [line] _ lines _); try exact IH.
  - unfold saiextensions_line.
    destruct (Py.contains API_MARK line), (Py.contains INCLUDE_MARK line);
      cbn [app]; repeat first [ apply sublist_skip | apply sublist_cons
                              | apply sublist_nil ].
  - unfold saitypesextensions_line. apply sublist_inserts_l. reflexivity.
  - unfold saiobject_line.
    destruct (Py.contains INCLUDE_MARK line).
    + apply sublist_inserts_r, sublist_inserts_l. reflexivity.
    + apply sublist_inserts_l. reflexivity.
Qed.

(** X23: [saiobject.h] depends on the entry tables alone: the object
    tables of the model can be left out without changing the new lines. *)
Theorem saiobject_entries_only (app_name : string)
    (sai_tables : list sai_table_data) (lines : list string) :
  saiobject_lines app_name sai_tables lines
  = saiobject_lines app_name (entry_tables sai_tables) lines.
Proof.
  rewrite !saiobject_flat. induction lines as [|line lines IH]; simpl;
    [reflexivity |].
  rewrite IH. f_equal. unfold saiobject_line.
  now rewrite (object_member_lines_entries sai_tables).
Qed.

(** ** Command line *)

(** X24: the exclusion list of the command line.  Its items, joined by
    commas, give back the argument; there is one more item than there are
    commas, so the list is never empty (the empty argument gives one empty
    name); no item has a comma, so a table whose derived name has a comma
    cannot be excluded. *)
Theorem cli_ignore_tables_items (arg : string) :
  Py.join "," (cli_ignore_tables arg) = arg
  /\ List.length (cli_ignore_tables arg) = S (occurrences "," arg)
  /\ (forall t n, derived_name t = Ok n -> (0 < occurrences "," n)%nat ->
                  excluded (cli_ignore_tables arg) t = false).
Proof.
  unfold cli_ignore_tables. split; [apply split_join |].
  split; [apply split_length |].
  intros t n Hn Hcomma. unfold excluded. rewrite Hn.
  destruct (Py.mem n (Py.split "," arg)) eqn:E; [| reflexivity].
  apply mem_In in E. pose proof (split_segments_clean "," arg) as Hclean.
  rewrite Forall_forall in Hclean. apply list_elem_of_In in E.
  specialize (Hclean n E). lia.
Qed.

Lemma cli_ignore_tables_items_witness :
  excluded (cli_ignore_tables "a,b,port")
    (Table "ingress.a,b" [] []) = false.
Proof.
  apply (proj2 (proj2 (cli_ignore_tables_items "a,b,port"))
           (Table "ingress.a,b" [] []) "a,b"); [reflexivity |].
  simpl. lia.
Defined.

(** ** Widths a match field may have *)

Lemma list_resolvers_fail (w : Z) (h f : string) :
  (get_sai_list_type w h f = Raise UnsupportedWidth <-> 64 < w)
  /\ (get_sai_range_list_type w h f = Raise UnsupportedWidth <-> 64 < w)
  /\ (get_sai_key_type w h f = Raise UnsupportedWidth <-> 64 < w).
Proof.
  unfold get_sai_list_type, get_sai_range_list_type, get_sai_key_type.
  repeat split;
    repeat (match goal with
            | |- context [Z.eqb ?a ?b] => destruct (Z.eqb_spec a b)
            | |- context [Z.leb ?a ?b] => destruct (Z.leb_spec a b)
            end; cbn [andb]);
    repeat match goal with
      | |- context [if ?b then _ else _] => destruct b
      end; intros; try reflexivity; try lia; discriminate.
Qed.

(** X25: the widths each match kind accepts.  For a field with a name of
    the expected shape, an [exact], [list] or [range_list] key fails with
    [UnsupportedWidth] exactly when it is wider than 64 bits, and an [lpm]
    key fails with [UnsupportedWidth] whenever it is not 32 bits wide. *)
Theorem get_sai_key_data_widths (key : match_field) (tag : string) :
  name_shape (mf_name key) ->
  resolved_tag key tag ->
  (Py.lower tag = "exact" \/ Py.lower tag = "list"
   \/ Py.lower tag = "range_list" ->
   (get_sai_key_data key = Raise UnsupportedWidth <-> 64 < mf_bitwidth key))
  /\ (Py.lower tag = "lpm" -> mf_bitwidth key <> 32 ->
      get_sai_key_data key = Raise UnsupportedWidth).
Proof.
  intros (full & declared & [h f] & Hn & Hh) Htag.
  unfold get_sai_key_data. rewrite Hn. cbn [bind fst snd].
  rewrite Hh. cbn [bind fst snd].
  rewrite (key_match_type_tag key tag Htag). cbn [bind].
  destruct (list_resolvers_fail (mf_bitwidth key) h f) as (Hl & Hr & Hs).
  split.
  - intros [-> | [-> | ->]]; simpl.
    + rewrite <- Hs.
      destruct (get_sai_key_type _ h f) as [ty|e]; cbn [bind];
        split; congruence.
    + rewrite <- Hl.
      destruct (get_sai_list_type _ h f) as [ty|e]; cbn [bind];
        split; congruence.
    + rewrite <- Hr.
      destruct (get_sai_range_list_type _ h f) as [ty|e]; cbn [bind];
        split; congruence.
  - intros -> Hw. simpl. unfold get_sai_lpm_type.
    destruct (Z.eqb_spec (mf_bitwidth key) 32); [contradiction | reflexivity].
Qed.

Lemma get_sai_key_data_widths_witness :
  get_sai_key_data (MatchField "hdr.ipv6.dst:ip_addr" 128 (Some "LPM") None)
  = Raise UnsupportedWidth.
Proof.
  apply (get_sai_key_data_widths
           (MatchField "hdr.ipv6.dst:ip_addr" 128 (Some "LPM") None) "LPM").
  - exists "hdr.ipv6.dst", "ip_addr", ("ipv6", "dst"). split; reflexivity.
  - right. split; reflexivity.
  - reflexivity.
  - simpl. lia.
Defined.

Lemma get_sai_key_data_unpack_witness :
  get_sai_key_data (MatchField "hdr.ipv4.dst_addr" 32 (Some "EXACT") None)
  = Raise UnpackError.
Proof.
  apply (get_sai_key_data_unpack
           (MatchField "hdr.ipv4.dst_addr" 32 (Some "EXACT") None)).
  intros (full & declared & hints & Hn & _). vm_compute in Hn. discriminate Hn.
Defined.
